(** * graphql-client: the request execution pipeline

    A shallow embedding of [graphql_request.go] and of the error model files
    of [pzentenoe/graphql-client].  The repository carries two generations
    of the client: the legacy one ([Run(ctx, req, resp, errorResp) error],
    request type [GraphqlRequest], error type [graphErr]) and the unified
    one ([Run(ctx, req, target)] returning an envelope and an error, request type
    [GraphRequest], error type [GraphErr]).  Both are embedded, in the
    modules [Legacy] and [Unified]; what they share comes first.

    Library calls ([encoding/json], [mime/multipart], [net/http]) are
    embedded at the level of the values they exchange: a JSON text is the
    tree it spells, a multipart body is its list of parts, an HTTP header is
    a map from canonical names to value lists. *)

From Stdlib Require Import ZArith List Ascii String Bool.
From Stdlib.Strings Require Import Byte.
From stdpp Require Import base option list gmap strings sorting.
Import ListNotations.
Set Warnings "-register-all".
Local Open Scope Z_scope.
Local Open Scope string_scope.

(** ** JSON values *)

(** The tree of a JSON text.  Objects keep their members in text order, with
    duplicates, because the decoder visits them in that order.  A number is
    an integer literal, of any size; fractional literals and exponents are
    outside the model.  Strings are sequences of bytes. *)
Inductive json : Type :=
  | JNull
  | JBool (b : bool)
  | JNum (n : Z)
  | JStr (s : string)
  | JArr (items : list json)
  | JObj (members : list (string * json)).

(** What [encoding/json] reports when a value does not fit its target. *)
Inductive json_error : Type :=
  | UnmarshalTypeError (value : string) (target : string)
  | SyntaxError
  | UnsupportedTypeError.

(** ** UTF-8 ([unicode/utf8]) *)

Definition byte_in (lo hi : N) (c : ascii) : bool :=
  ((lo <=? N_of_ascii c) && (N_of_ascii c <=? hi))%N.

(** For a leading byte: how many bytes follow it, and the range the first
    of them must lie in (the tables [first] and [acceptRanges]).  Overlong
    forms, surrogates and values above U+10FFFF have no entry. *)
Definition utf8_lead (c : ascii) : option (nat * N * N) :=
  let n := N_of_ascii c in
  if (n <? 128)%N then Some (0%nat, 0%N, 0%N)
  else if ((194 <=? n) && (n <=? 223))%N then Some (1%nat, 128%N, 191%N)
  else if (n =? 224)%N then Some (2%nat, 160%N, 191%N)
  else if (n =? 237)%N then Some (2%nat, 128%N, 159%N)
  else if ((225 <=? n) && (n <=? 239))%N then Some (2%nat, 128%N, 191%N)
  else if (n =? 240)%N then Some (3%nat, 144%N, 191%N)
  else if (n =? 244)%N then Some (3%nat, 128%N, 143%N)
  else if ((241 <=? n) && (n <=? 243))%N then Some (3%nat, 128%N, 191%N)
  else None.

Definition continuation (c : ascii) : bool := byte_in 128 191 c.

(** The width of the encoded rune a string starts with, as
    [utf8.DecodeRuneInString] finds it; 0 when the string does not start
    with a valid encoding (the decoder then yields [RuneError] of width 1). *)
Definition rune_len (s : string) : nat :=
  match s with
  | EmptyString => 0%nat
  | String c r =>
      match utf8_lead c with
      | None => 0%nat
      | Some (0%nat, _, _) => 1%nat
      | Some (1%nat, lo, hi) =>
          match r with
          | String c1 _ => if byte_in lo hi c1 then 2%nat else 0%nat
          | _ => 0%nat
          end
      | Some (2%nat, lo, hi) =>
          match r with
          | String c1 (String c2 _) =>
              if byte_in lo hi c1 && continuation c2 then 3%nat else 0%nat
          | _ => 0%nat
          end
      | Some (_, lo, hi) =>
          match r with
          | String c1 (String c2 (String c3 _)) =>
              if byte_in lo hi c1 && continuation c2 && continuation c3
              then 4%nat else 0%nat
          | _ => 0%nat
          end
      end
  end.

(** U+FFFD, encoded. *)
Definition replacement_char : string :=
  String "239"%char (String "191"%char (String "189"%char EmptyString)).

(** A string coerced to valid UTF-8 as the JSON encoder does it: every byte
    that does not start a valid encoding becomes U+FFFD.  [skip] counts the
    bytes still to copy of the rune being copied. *)
Fixpoint coerce_from (skip : nat) (s : string) : string :=
  match s with
  | EmptyString => EmptyString
  | String c r =>
      match skip with
      | S k => String c (coerce_from k r)
      | O =>
          match rune_len s with
          | O => replacement_char ++ coerce_from 0 r
          | S k => String c (coerce_from k r)
          end
      end
  end.

Definition to_valid_utf8 (s : string) : string := coerce_from 0 s.



(** ** Go values used as GraphQL variables ([interface{}]) *)

Inductive govalue : Type :=
  | GNil
  | GBool (b : bool)
  | GInt (n : Z)
  | GString (s : string)
  | GSlice (items : list govalue)
  | GChan.  (* a value [encoding/json] cannot encode: channel, func, complex *)

(** [json.Marshal] on a dynamic value.  A string is written coerced to valid
    UTF-8 (how it is escaped in the text does not show in the tree). *)
Fixpoint marshal (v : govalue) : option json :=
  match v with
  | GNil => Some JNull
  | GBool b => Some (JBool b)
  | GInt n => Some (JNum n)
  | GString s => Some (JStr (to_valid_utf8 s))
  | GSlice items =>
      (fix all (l : list govalue) : option (list json) :=
         match l with
         | [] => Some []
         | x :: r =>
             match marshal x, all r with
             | Some j, Some js => Some (j :: js)
             | _, _ => None
             end
         end) items ≫= λ js, Some (JArr js)
  | GChan => None
  end.

(** Byte-wise order on the keys of map entries, the order the encoder
    sorts them in. *)
Definition key_le {A : Type} (a b : string * A) : Prop := String.leb a.1 b.1 = true.

#[local] Instance key_le_dec {A : Type} : RelDecision (@key_le A).
Proof. intros a b. unfold key_le. apply _. Defined.

(** Marshal every entry of a list of map entries, failing on the first value
    that cannot be encoded.  A key is written, like every string, coerced
    to valid UTF-8. *)
Fixpoint marshal_entries (l : list (string * govalue)) : option (list (string * json)) :=
  match l with
  | [] => Some []
  | (k, v) :: r =>
      match marshal v, marshal_entries r with
      | Some j, Some js => Some ((to_valid_utf8 k, j) :: js)
      | _, _ => None
      end
  end.

(** [json.Marshal] on a [map[string]interface{}]: [null] for the nil map,
    otherwise an object whose members follow the order of the map's keys
    (sorted as they are in the map, before they are coerced). *)
Definition marshal_vars (vars : option (gmap string govalue)) : option json :=
  match vars with
  | None => Some JNull
  | Some m =>
      marshal_entries (merge_sort key_le (map_to_list m)) ≫= λ js, Some (JObj js)
  end.


(** ** Decoding ([encoding/json], type directed) *)

(** A decoder writes into an existing target.  It returns the target as the
    decoder leaves it and the first mismatch it met, if any: the library
    keeps decoding after a type mismatch and reports the first one at the
    end ([saveError]). *)
Definition decoder (A : Type) : Type := json → A → A * option json_error.

Definition first_error (e1 e2 : option json_error) : option json_error :=
  match e1 with Some _ => e1 | None => e2 end.

(** The name of a JSON value's kind, as the library's error messages spell it. *)
Definition kind_of (j : json) : string :=
  match j with
  | JNull => "null" | JBool _ => "bool" | JNum _ => "number"
  | JStr _ => "string" | JArr _ => "array" | JObj _ => "object"
  end.

(** A [string] target: a JSON string is stored, [null] leaves the target
    alone, anything else is a type mismatch. *)
Definition dec_string : decoder string := λ j old,
  match j with
  | JStr s => (s, None)
  | JNull => (old, None)
  | _ => (old, Some (UnmarshalTypeError (kind_of j) "string"))
  end.

(** An [int] target (64 bits). *)
Definition dec_int : decoder Z := λ j old,
  match j with
  | JNum n =>
      if ((- 2 ^ 63 <=? n) && (n <? 2 ^ 63))%Z then (n, None)
      else (old, Some (UnmarshalTypeError "number" "int"))
  | JNull => (old, None)
  | _ => (old, Some (UnmarshalTypeError (kind_of j) "int"))
  end.

(** The float64 nearest to an integer literal ([strconv.ParseFloat], round
    to nearest, ties to even), given as the integer it is equal to; [None]
    when the literal is beyond the range of float64. *)
Definition float64_of (n : Z) : option Z :=
  let a := Z.abs n in
  if (a <? 2 ^ 53)%Z then Some n
  else
    let e := (Z.log2 a - 52)%Z in
    let q := Z.shiftr a e in
    let rest := (a - q * 2 ^ e)%Z in
    let half := (2 ^ (e - 1))%Z in
    let q' := if ((half <? rest) || ((rest =? half) && Z.odd q))%Z
              then (q + 1)%Z else q in
    let r := (q' * 2 ^ e)%Z in
    if (2 ^ 1024 <=? r)%Z then None else Some (Z.sgn n * r)%Z.

(** The generic form of a JSON value, as [interface{}] receives it: this
    model writes it as a JSON value again ([JNull] is nil, an object stands
    for the [map[string]interface{}] made of its members).  A number
    becomes its float64; one beyond the range of float64 is a mismatch, and
    nil stands in its place. *)
Fixpoint generic (j : json) : json * option json_error :=
  match j with
  | JNum n =>
      match float64_of n with
      | Some f => (JNum f, None)
      | None => (JNull, Some (UnmarshalTypeError "number" "float64"))
      end
  | JArr items =>
      let rs := map generic items in
      (JArr (map fst rs), foldr first_error None (map snd rs))
  | JObj ms =>
      let rs := map (λ kv, let '(k, v) := kv in (k, generic v)) ms in
      (JObj (map (λ r, (r.1, r.2.1)) rs),
       foldr first_error None (map (λ r, r.2.2) rs))
  | _ => (j, None)
  end.

(** Every number in the value fits a float64. *)
Fixpoint numbers_fit (j : json) : bool :=
  match j with
  | JNum n => bool_decide (is_Some (float64_of n))
  | JArr items => forallb numbers_fit items
  | JObj ms => forallb (λ kv, let '(_, v) := kv in numbers_fit v) ms
  | _ => true
  end.

(** Every number in the value is a float64: the integers up to 2^53 in
    absolute value are. *)
Fixpoint numbers_exact (j : json) : bool :=
  match j with
  | JNum n => (Z.abs n <=? 2 ^ 53)%Z
  | JArr items => forallb numbers_exact items
  | JObj ms => forallb (λ kv, let '(_, v) := kv in numbers_exact v) ms
  | _ => true
  end.

(** An [interface{}] target that holds no pointer receives the generic form
    of the value.  A number beyond float64 that is the value itself is not
    stored at all: the target keeps what it held. *)
Definition dec_interface : decoder json := λ j old,
  match j with
  | JNum n =>
      match float64_of n with
      | Some f => (JNum f, None)
      | None => (old, Some (UnmarshalTypeError "number" "float64"))
      end
  | _ => generic j
  end.

(** A [map[string]interface{}] target; the nil map is the empty map.  Every
    member is stored in generic form, a later member over an earlier one
    with the same key. *)
Definition dec_map : decoder (gmap string json) := λ j old,
  match j with
  | JObj ms =>
      foldl (λ acc kv, let '(v, e) := generic kv.2 in
                       (<[kv.1 := v]> acc.1, first_error acc.2 e))
        (old, None) ms
  | JNull => (∅, None)
  | _ => (old, Some (UnmarshalTypeError (kind_of j) "map[string]interface {}"))
  end.

(** The elements of a JSON array written over the elements of a slice:
    position by position into the existing elements, into the zero value
    past the old length. *)
Fixpoint dec_elems {A : Type} (dec : decoder A) (zero : A)
    (js : list json) (old : list A) : list A * option json_error :=
  match js with
  | [] => ([], None)
  | j :: js' =>
      let cur := match old with [] => zero | a :: _ => a end in
      let '(a', e1) := dec j cur in
      let '(l', e2) := dec_elems dec zero js' (tail old) in
      (a' :: l', first_error e1 e2)
  end.

(** A slice target; the nil slice is the empty list. *)
Definition dec_slice {A : Type} (dec : decoder A) (zero : A) (ty : string)
  : decoder (list A) := λ j old,
  match j with
  | JArr js => dec_elems dec zero js old
  | JNull => ([], None)
  | _ => (old, Some (UnmarshalTypeError (kind_of j) ty))
  end.

(** Field names are matched exactly first, then by their folded form. *)
Definition upper_ascii (c : ascii) : ascii :=
  let n := nat_of_ascii c in
  if ((97 <=? n) && (n <=? 122))%nat then ascii_of_nat (n - 32) else c.

Definition lower_ascii (c : ascii) : ascii :=
  let n := nat_of_ascii c in
  if ((65 <=? n) && (n <=? 90))%nat then ascii_of_nat (n + 32) else c.

(** [foldName]: a name with every rune replaced by the least rune of its
    case-fold set.  ASCII letters go to upper case.  Two other runes have an
    ASCII letter in their fold set and go to it: the long s (U+017F, bytes
    C5 BF) to [S] and the Kelvin sign (U+212A, bytes E2 84 AA) to [K].  Every
    other rune folds to a rune outside ASCII and is kept here as it stands:
    the folded form is only ever compared with that of a field name, and
    the field names are ASCII, so the same keys match. *)
Fixpoint foldName (s : string) : string :=
  match s with
  | EmptyString => EmptyString
  | String c r =>
      match r with
      | String c2 r2 =>
          if Ascii.eqb c "197" && Ascii.eqb c2 "191"
          then String "S" (foldName r2)
          else
            match r2 with
            | String c3 r3 =>
                if Ascii.eqb c "226" && Ascii.eqb c2 "132" && Ascii.eqb c3 "170"
                then String "K" (foldName r3)
                else String (upper_ascii c) (foldName r)
            | EmptyString => String (upper_ascii c) (foldName r)
            end
      | EmptyString => String (upper_ascii c) (foldName r)
      end
  end.

(** A struct's decodable fields: JSON name and the decoder of the field,
    already lifted to the struct. *)
Definition fields (S : Type) : Type := list (string * decoder S).

Definition find_field {S : Type} (fs : fields S) (key : string) : option (decoder S) :=
  match list_find (λ f, f.1 = key) fs with
  | Some (_, f) => Some f.2
  | None =>
      match list_find (λ f, foldName f.1 = foldName key) fs with
      | Some (_, f) => Some f.2
      | None => None
      end
  end.

(** One member of an object written into a struct. *)
Definition dec_member {S : Type} (fs : fields S)
    (acc : S * option json_error) (kv : string * json) : S * option json_error :=
  match find_field fs kv.1 with
  | Some dec => let '(s', e) := dec kv.2 acc.1 in (s', first_error acc.2 e)
  | None => acc
  end.

(** A struct target: the members are visited in text order, unknown keys are
    skipped, [null] leaves the struct alone. *)
Definition dec_struct {S : Type} (fs : fields S) (ty : string) : decoder S := λ j old,
  match j with
  | JObj ms => foldl (dec_member fs) (old, None) ms
  | JNull => (old, None)
  | _ => (old, Some (UnmarshalTypeError (kind_of j) ty))
  end.

(** Lift a field decoder to the struct through a getter and a setter. *)
Definition at_field {S A : Type} (get : S → A) (set : A → S → S) (dec : decoder A)
  : decoder S := λ j s, let '(a, e) := dec j (get s) in (set a s, e).

(** ** The error model *)

Record Location : Type := { Column : Z; Line : Z }.

Definition dec_Location : decoder Location :=
  dec_struct
    [ ("column", at_field Column (λ a l, {| Column := a; Line := Line l |}) dec_int);
      ("line", at_field Line (λ a l, {| Column := Column l; Line := a |}) dec_int) ]
    "Location".

Definition zero_Location : Location := {| Column := 0; Line := 0 |}.

(** [GraphErr], with [Message interface{}]. *)
Record GraphErr : Type := {
  Message : json;
  ErrorExtensions : gmap string json;
  Locations : list Location;
  Path : list string
}.

Definition zero_GraphErr : GraphErr :=
  {| Message := JNull; ErrorExtensions := ∅; Locations := []; Path := [] |}.

Definition Extensions (e : GraphErr) : gmap string json := ErrorExtensions e.

Definition GraphErr_fields : fields GraphErr :=
  [ ("message",
      at_field Message
        (λ a e, {| Message := a; ErrorExtensions := ErrorExtensions e;
                   Locations := Locations e; Path := Path e |})
        dec_interface);
    ("extensions",
      at_field ErrorExtensions
        (λ a e, {| Message := Message e; ErrorExtensions := a;
                   Locations := Locations e; Path := Path e |})
        dec_map);
    ("locations",
      at_field Locations
        (λ a e, {| Message := Message e; ErrorExtensions := ErrorExtensions e;
                   Locations := a; Path := Path e |})
        (dec_slice dec_Location zero_Location "[]Location"));
    ("path",
      at_field Path
        (λ a e, {| Message := Message e; ErrorExtensions := ErrorExtensions e;
                   Locations := Locations e; Path := a |})
        (dec_slice dec_string "" "[]string")) ].

Definition dec_GraphErr : decoder GraphErr := dec_struct GraphErr_fields "GraphErr".

(** The other [GraphErr] of the repository, with [Message string] and no tag
    on that field. *)
Module StringMessage.

Record GraphErr : Type := {
  Message : string;
  ErrorExtensions : gmap string json;
  Locations : list Location;
  Path : list string
}.

Definition zero_GraphErr : GraphErr :=
  {| Message := ""; ErrorExtensions := ∅; Locations := []; Path := [] |}.

Definition Extensions (e : GraphErr) : gmap string json := ErrorExtensions e.

Definition Error (e : GraphErr) : string := "graphql: " ++ Message e.

Definition GraphErr_fields : fields GraphErr :=
  [ ("Message",
      at_field Message
        (λ a e, {| Message := a; ErrorExtensions := ErrorExtensions e;
                   Locations := Locations e; Path := Path e |})
        dec_string);
    ("extensions",
      at_field ErrorExtensions
        (λ a e, {| Message := Message e; ErrorExtensions := a;
                   Locations := Locations e; Path := Path e |})
        dec_map);
    ("locations",
      at_field Locations
        (λ a e, {| Message := Message e; ErrorExtensions := ErrorExtensions e;
                   Locations := a; Path := Path e |})
        (dec_slice dec_Location zero_Location "[]Location"));
    ("path",
      at_field Path
        (λ a e, {| Message := Message e; ErrorExtensions := ErrorExtensions e;
                   Locations := Locations e; Path := a |})
        (dec_slice dec_string "" "[]string")) ].

Definition dec_GraphErr : decoder GraphErr := dec_struct GraphErr_fields "GraphErr".

End StringMessage.

(** The legacy [graphErr]. *)
Module LegacyErr.

Record graphErr : Type := {
  Message : string;
  ErrorExtensions : gmap string json
}.

Definition zero_graphErr : graphErr := {| Message := ""; ErrorExtensions := ∅ |}.

Definition Extensions (e : graphErr) : gmap string json := ErrorExtensions e.

Definition Error (e : graphErr) : string := "graphql: " ++ Message e.

Definition graphErr_fields : fields graphErr :=
  [ ("Message",
      at_field Message (λ a e, {| Message := a; ErrorExtensions := ErrorExtensions e |})
        dec_string);
    ("extensions",
      at_field ErrorExtensions (λ a e, {| Message := Message e; ErrorExtensions := a |})
        dec_map) ].

Definition dec_graphErr : decoder graphErr := dec_struct graphErr_fields "graphErr".

End LegacyErr.

(** ** Errors returned by [Run] *)

Inductive ctx_error : Type := Canceled | DeadlineExceeded.

Inductive error : Type :=
  | ContextErr (e : ctx_error)            (* ctx.Err() *)
  | ErrorsNew (msg : string)              (* errors.New(msg) *)
  | Wrap (cause : error) (msg : string)   (* errors.Wrap(cause, msg) *)
  | StatusNotOK (code : Z)                (* fmt.Errorf(messageCodeNotOK, code) *)
  | JSONError (e : json_error)            (* an error of encoding/json *)
  | GraphError (e : LegacyErr.graphErr)   (* a graphErr returned as an error *)
  | Opaque (msg : string).                (* an error made by a collaborator *)

Definition messageCodeNotOK (code : Z) : error := StatusNotOK code.

(** A Go call either returns or panics. *)
Inductive outcome (A : Type) : Type :=
  | Return (a : A)
  | Panic.
Arguments Return {A} a.
Arguments Panic {A}.

(** [ctx.Err()] at the moment [Run] looks at the context: [None] while the
    [Done] channel is not closed. *)
Definition Context : Type := option ctx_error.

(** ** HTTP headers ([net/http], [net/textproto]) *)

(** [http.Header] is [map[string][]string]. *)
Abbreviation http_Header := (gmap string (list string)).

Definition is_letter_or_digit (c : ascii) : bool :=
  let n := nat_of_ascii c in
  (((97 <=? n) && (n <=? 122)) || ((65 <=? n) && (n <=? 90))
   || ((48 <=? n) && (n <=? 57)))%nat.

(** The bytes of an HTTP token. *)
Definition validHeaderFieldByte (c : ascii) : bool :=
  is_letter_or_digit c
  || existsb (Ascii.eqb c) (list_ascii_of_string "!#$%&'*+-.^_`|~").

Fixpoint canonical_case (upper : bool) (s : string) : string :=
  match s with
  | EmptyString => EmptyString
  | String c r =>
      let c' := if upper then upper_ascii c else lower_ascii c in
      String c' (canonical_case (Ascii.eqb c' "-") r)
  end.

(** A key that is no token is left as it is; otherwise the first letter and
    every letter after a hyphen are upper case, the others lower case. *)
Definition CanonicalMIMEHeaderKey (s : string) : string :=
  if forallb validHeaderFieldByte (list_ascii_of_string s)
  then canonical_case true s else s.

(** [h[key]], nil when the key is absent. *)
Definition index (h : http_Header) (key : string) : list string :=
  default [] (h !! key).

Definition Header_Set (key value : string) (h : http_Header) : http_Header :=
  <[CanonicalMIMEHeaderKey key := [value]]> h.

Definition Header_Add (key value : string) (h : http_Header) : http_Header :=
  <[CanonicalMIMEHeaderKey key := (index h (CanonicalMIMEHeaderKey key) ++ [value])%list]> h.

Definition Header_Values (h : http_Header) (key : string) : list string :=
  index h (CanonicalMIMEHeaderKey key).

Definition Header_Get (h : http_Header) (key : string) : string :=
  match Header_Values h key with
  | [] => ""
  | v :: _ => v
  end.

(** ** The request value object *)

(** An [io.Reader] read to its end: the bytes it yields, then [io.EOF] or a
    failure. *)
Record Reader : Type := { content : list byte; failure : option error }.

Record File : Type := { Field : string; Name : string; R : Reader }.

(** [GraphRequest]; the legacy [GraphqlRequest] is the same struct with the
    same methods. *)
Record GraphRequest : Type := {
  query : string;
  vars : option (gmap string govalue);   (* [None] is the nil map *)
  files : list File;
  Header : http_Header
}.

Abbreviation GraphqlRequest := GraphRequest.

Definition NewGraphqlRequest (q : string) : GraphRequest :=
  {| query := q; vars := None; files := []; Header := ∅ |}.

Definition Var (key : string) (value : govalue) (req : GraphRequest) : GraphRequest :=
  let m := match vars req with None => ∅ | Some m => m end in
  {| query := query req; vars := Some (<[key := value]> m);
     files := files req; Header := Header req |}.

Definition Vars (req : GraphRequest) : option (gmap string govalue) := vars req.

Definition Files (req : GraphRequest) : list File := files req.

Definition Query (req : GraphRequest) : string := query req.

Definition AttachFile (fieldname filename : string) (r : Reader) (req : GraphRequest)
  : GraphRequest :=
  {| query := query req; vars := vars req;
     files := (files req ++ [ {| Field := fieldname; Name := filename; R := r |} ])%list;
     Header := Header req |}.

(** [len(req.vars)]. *)
Definition len_vars (req : GraphRequest) : nat :=
  match vars req with None => 0%nat | Some m => size m end.

(** ** Request bodies *)

(** One part of a multipart body: the form name, the file name of a file
    part, and the bytes of the part. *)
Inductive part_data : Type :=
  | Text (s : string)            (* the string, as it is *)
  | JSONLine (j : json)          (* the JSON text of [j] and a newline *)
  | Bytes (b : list byte).       (* the bytes copied from a reader *)

(** A part as it stands in the body: the [name] and [filename] parameters
    of its Content-Disposition header as they are written between their
    quotes, its Content-Type header if it has one, and its bytes. *)
Record part : Type := {
  form_name : string;
  file_name : option string;
  content_type : option string;
  data : part_data
}.

Inductive request_body : Type :=
  | JSONBody (j : json)                                  (* the JSON text of [j] and a newline *)
  | MultipartBody (boundary : string) (parts : list part).

Record http_request : Type := {
  Method : string;
  URL : string;
  ReqHeader : http_Header;
  Body : request_body;
  Close : bool
}.

(** A response body as [io.Copy] buffers it: [text] is the JSON value the
    bytes spell ([None] when they are no JSON text); [after_decoder] is what
    the bytes left in the buffer spell once a [json.Decoder] has read from
    it (nothing, for a body the decoder takes in one read). *)
Record body_bytes : Type := { text : option json; after_decoder : option json }.

Inductive response_body : Type :=
  | Readable (b : body_bytes)
  | Unreadable (e : error).

Record http_response : Type := { StatusCode : Z; RespBody : response_body }.

Definition StatusOK : Z := 200.

(** [HTTPDoer]: the one method [Do]. *)
Definition HTTPDoer : Type := http_request → http_response + error.

(** ** The client *)

(** The fields [Run] reads.  The struct's [query], [params], [headers] and
    [graphqlRequest] are never read, and the [Log] sink only receives debug
    lines on which no result depends; they are left out.  [httpClient] is
    nil until an option or [NewClient] fills it. *)
Record Client : Type := {
  url : string;
  httpClient : option HTTPDoer;
  useMultipartForm : bool;
  closeReq : bool
}.

Definition ClientOption : Type := Client → Client.

Definition WithHTTPClient (d : HTTPDoer) : ClientOption := λ c,
  {| url := url c; httpClient := Some d;
     useMultipartForm := useMultipartForm c; closeReq := closeReq c |}.

Definition UseMultipartForm : ClientOption := λ c,
  {| url := url c; httpClient := httpClient c;
     useMultipartForm := true; closeReq := closeReq c |}.

Definition ImmediatelyCloseReqBody : ClientOption := λ c,
  {| url := url c; httpClient := httpClient c;
     useMultipartForm := useMultipartForm c; closeReq := true |}.

Definition NewClient (DefaultClient : HTTPDoer) (u : string) (opts : list ClientOption)
  : Client :=
  let c := foldl (λ c opt, opt c)
             {| url := u; httpClient := None; useMultipartForm := false; closeReq := false |}
             opts in
  match httpClient c with
  | None => WithHTTPClient DefaultClient c
  | Some _ => c
  end.

(** What a run of the program draws from outside: the order in which
    [range] visits the request's header map, and the boundary the multipart
    writer picks at random. *)
Record choices : Type := {
  header_order : list (string * list string);
  boundary_choice : string
}.

(** [range] visits every entry of the map once, in some order. *)
Definition range_of (h : http_Header) (ch : choices) : Prop :=
  header_order ch ≡ₚ map_to_list h.

(** The inner loop of [addHTTPHeaders]: every value of one entry is added. *)
Definition add_values (key : string) (values : list string) (h : http_Header)
  : http_Header :=
  foldl (λ acc value, Header_Add key value acc) h values.

(** The outer loop: the entries, in the order [range] yields them. *)
Definition add_entries (order : list (string * list string)) (h : http_Header)
  : http_Header :=
  foldl (λ acc kv, add_values kv.1 kv.2 acc) h order.

Definition addHTTPHeaders (h : http_Header) (order : list (string * list string))
    (contentType : string) : http_Header :=
  let h1 := Header_Set "Content-Type" contentType h in
  let h2 := Header_Set "Accept" "application/json; charset=utf-8" h1 in
  add_entries order h2.

(** [writer.FormDataContentType()], for a boundary without special bytes. *)
Definition FormDataContentType (boundary : string) : string :=
  "multipart/form-data; boundary=" ++ boundary.

(** ** The multipart writer and reader ([mime/multipart], [mime]) *)

Definition quote_char : ascii := "034"%char.
Definition backslash_char : ascii := "092"%char.
Definition CR_char : ascii := "013"%char.
Definition LF_char : ascii := "010"%char.

(** [escapeQuotes], byte by byte: a backslash before a backslash and before
    a quote, and a percent code for CR and for LF. *)
Definition escape_byte (c : ascii) (rest : string) : string :=
  if Ascii.eqb c backslash_char then String backslash_char (String backslash_char rest)
  else if Ascii.eqb c quote_char then String backslash_char (String quote_char rest)
  else if Ascii.eqb c CR_char then String "%" (String "0" (String "D" rest))
  else if Ascii.eqb c LF_char then String "%" (String "0" (String "A" rest))
  else String c rest.

Fixpoint escapeQuotes (s : string) : string :=
  match s with
  | EmptyString => EmptyString
  | String c r => escape_byte c (escapeQuotes r)
  end.

(** The characters [mime] calls tspecials. *)
Definition isTSpecial (c : ascii) : bool :=
  existsb (Ascii.eqb c)
    (quote_char :: backslash_char :: list_ascii_of_string "()<>@,;:/[]?=").

(** A quoted parameter value as [mime.ParseMediaType] reads it, from what
    stands between the quotes: a backslash before a tspecial is dropped. *)
Fixpoint unquote (s : string) : string :=
  match s with
  | EmptyString => EmptyString
  | String c r =>
      if Ascii.eqb c backslash_char then
        match r with
        | String c' r' =>
            if isTSpecial c' then String c' (unquote r') else String c (unquote r)
        | EmptyString => String c EmptyString
        end
      else String c (unquote r)
  end.






(** [CreateFormFile]: the part of an attachment, with the copied bytes.
    Copying stops at the first reader that fails. *)
Definition file_part (f : File) : part :=
  {| form_name := escapeQuotes (Field f);
     file_name := Some (escapeQuotes (Name f));
     content_type := Some "application/octet-stream";
     data := Bytes (content (R f)) |}.

Fixpoint copy_files (fs : list File) : list part + error :=
  match fs with
  | [] => inl []
  | f :: r =>
      match failure (R f) with
      | Some e => inr (Wrap e "preparing file")
      | None =>
          match copy_files r with
          | inl ps => inl (file_part f :: ps)
          | inr e => inr e
          end
      end
  end.

(** [CreateFormField]: a part with a name only. *)
Definition field_part (name : string) (d : part_data) : part :=
  {| form_name := escapeQuotes name; file_name := None; content_type := None; data := d |}.

(** The body [runWithPostFields] writes: the query field, the variables
    field when [len(req.vars) > 0], the files.  The writer itself cannot
    fail on a memory buffer; the encoder of the variables and the readers
    of the files can. *)
Definition multipart_parts (req : GraphRequest) : list part + error :=
  let q := field_part "query" (Text (query req)) in
  let variables :=
    if (0 <? len_vars req)%nat then
      match marshal_vars (vars req) with
      | Some j => inl [field_part "variables" (JSONLine j)]
      | None => inr (Wrap (JSONError UnsupportedTypeError) "encode variables")
      end
    else inl [] in
  match variables with
  | inr e => inr e
  | inl vs =>
      match copy_files (files req) with
      | inr e => inr e
      | inl fs => inl (q :: vs ++ fs)%list
      end
  end.

(** The body [runWithJSON] writes: the [graphqlModel] struct, encoded.  The
    query is written, like every string, coerced to valid UTF-8. *)
Definition json_body (req : GraphRequest) : json + error :=
  match marshal_vars (vars req) with
  | Some v => inl (JObj [("query", JStr (to_valid_utf8 (query req))); ("variables", v)])
  | None => inr (Wrap (JSONError UnsupportedTypeError) "encode body")
  end.

(** ** The unified client *)

Module Unified.
Section run.

(** The caller's target: a pointer to a value of some type [T], with the
    decoder of that type. *)
Context {T : Type}.
Variable decode_target : decoder T.

(** [url.Parse] inside [http.NewRequest]: the error it returns, if any. *)
Variable parse_url : string → option error.

(** The [Data interface{}] field: nil, the caller's pointer (with what it
    points to), or a value in generic form. *)
Inductive data_value : Type :=
  | DataNil
  | DataPtr (t : T)
  | DataValue (j : json).

Record GraphResponse : Type := { Data : data_value; Errors : list GraphErr }.

(** Through a pointer held by the interface the decoder writes into the
    pointed value; [null] sets the interface to nil; without a pointer the
    interface receives the generic form. *)
Definition dec_Data : decoder data_value := λ j old,
  match j, old with
  | JNull, _ => (DataNil, None)
  | _, DataPtr t => let '(t', e) := decode_target j t in (DataPtr t', e)
  | JNum n, _ =>
      match float64_of n with
      | Some f => (DataValue (JNum f), None)
      | None => (old, Some (UnmarshalTypeError "number" "float64"))
      end
  | _, _ => let '(v, e) := generic j in (DataValue v, e)
  end.

(** What the caller's pointer points to once the members of the response
    object have been decoded.  While the interface holds the pointer, every
    [data] member that is not [null] is decoded through it; a [data] member
    that is [null] sets the interface to nil, and from then on nothing is
    written through the pointer. *)
Fixpoint written (ms : list (string * json)) (t : T) : T :=
  match ms with
  | [] => t
  | (k, j) :: r =>
      if bool_decide (foldName k = foldName "Data")
      then match j with
           | JNull => t
           | _ => written r (decode_target j t).1
           end
      else written r t
  end.

(** The caller's target after the body has been decoded. *)
Definition target_after (target : option T) (body : option json) : option T :=
  match target, body with
  | Some t, Some (JObj ms) => Some (written ms t)
  | _, _ => target
  end.

Definition GraphResponse_fields : fields GraphResponse :=
  [ ("Data", at_field Data (λ a g, {| Data := a; Errors := Errors g |}) dec_Data);
    ("Errors",
      at_field Errors (λ a g, {| Data := Data g; Errors := a |})
        (dec_slice dec_GraphErr zero_GraphErr "[]GraphErr")) ].

(** [json.NewDecoder(&buf).Decode(&graphResponse)] on a non-nil pointer:
    [null] sets the pointer to nil. *)
Definition Decode (body : option json) (gr : GraphResponse)
  : option GraphResponse * option json_error :=
  match body with
  | None => (Some gr, Some SyntaxError)
  | Some JNull => (None, None)
  | Some j => let '(g, e) := dec_struct GraphResponse_fields "GraphResponse" j gr in (Some g, e)
  end.

(** What a call leaves behind: its return values (or a panic), the
    requests handed to the transport, and the content of the caller's
    target. *)
Record run_result : Type := {
  returned : outcome (option GraphResponse * option error);
  sent : list http_request;
  target : option T
}.

Definition interface_of (responseData : option T) : data_value :=
  match responseData with None => DataNil | Some t => DataPtr t end.

Definition fail (e : error) (s : list http_request) (responseData : option T)
  : run_result :=
  {| returned := Return (None, Some e); sent := s; target := responseData |}.

Definition NewRequest (c : Client) (h : http_Header) (b : request_body) : http_request :=
  {| Method := "POST"; URL := url c; ReqHeader := h; Body := b; Close := closeReq c |}.

Definition runWithJSON (c : Client) (req : GraphRequest) (responseData : option T)
    (ch : choices) : run_result :=
  match json_body req with
  | inr err => fail err [] responseData
  | inl requestBody =>
      let graphResponse := {| Data := interface_of responseData; Errors := [] |} in
      match parse_url (url c) with
      | Some err => fail err [] responseData
      | None =>
          let r := NewRequest c
                     (addHTTPHeaders ∅ (header_order ch) "application/json; charset=utf-8")
                     (JSONBody requestBody) in
          match httpClient c with
          | None => {| returned := Panic; sent := []; target := responseData |}
          | Some Do =>
              match Do r with
              | inr err => fail err [r] responseData
              | inl res =>
                  match RespBody res with
                  | Unreadable err => fail (Wrap err "reading body") [r] responseData
                  | Readable buf =>
                      if negb (StatusCode res =? StatusOK)%Z
                      then fail (messageCodeNotOK (StatusCode res)) [r] responseData
                      else
                        match Decode (text buf) graphResponse with
                        | (g, Some err) =>
                            {| returned :=
                                 Return (None, Some (Wrap (JSONError err) "decoding response"));
                               sent := [r]; target := target_after responseData (text buf) |}
                        | (g, None) =>
                            {| returned := Return (g, None);
                               sent := [r]; target := target_after responseData (text buf) |}
                        end
                  end
              end
          end
      end
  end.

Definition runWithPostFields (c : Client) (req : GraphRequest) (responseData : option T)
    (ch : choices) : run_result :=
  match multipart_parts req with
  | inr err => fail err [] responseData
  | inl parts =>
      let graphResponse := {| Data := interface_of responseData; Errors := [] |} in
      match parse_url (url c) with
      | Some err => fail err [] responseData
      | None =>
          let r := NewRequest c
                     (addHTTPHeaders ∅ (header_order ch)
                        (FormDataContentType (boundary_choice ch)))
                     (MultipartBody (boundary_choice ch) parts) in
          match httpClient c with
          | None => {| returned := Panic; sent := []; target := responseData |}
          | Some Do =>
              match Do r with
              | inr err => fail err [r] responseData
              | inl res =>
                  match RespBody res with
                  | Unreadable err => fail (Wrap err "reading body") [r] responseData
                  | Readable buf =>
                      match Decode (text buf) graphResponse with
                      | (g, Some err) =>
                          {| returned :=
                               Return (None,
                                 Some (if negb (StatusCode res =? StatusOK)%Z
                                       then messageCodeNotOK (StatusCode res)
                                       else Wrap (JSONError err) "decoding response"));
                             sent := [r]; target := target_after responseData (text buf) |}
                      | (g, None) =>
                          {| returned := Return (g, None);
                             sent := [r]; target := target_after responseData (text buf) |}
                      end
                  end
              end
          end
      end
  end.

Definition Run (c : Client) (ctx : Context) (req : GraphRequest)
    (graphqlResponse : option T) (ch : choices) : run_result :=
  match ctx with
  | Some e =>
      {| returned := Return (None, Some (ContextErr e)); sent := []; target := graphqlResponse |}
  | None =>
      if (0 <? length (files req))%nat && negb (useMultipartForm c)
      then fail (ErrorsNew "cannot send files with PostFields option") [] graphqlResponse
      else if useMultipartForm c
           then runWithPostFields c req graphqlResponse ch
           else runWithJSON c req graphqlResponse ch
  end.

End run.
End Unified.

(** ** The legacy client *)

Module Legacy.
Section run.

(** The caller's two targets: pointers to a value of type [T] for the data
    and to a value of type [E] for the error shape, with their decoders. *)
Context {T E : Type}.
Variable decode_target : decoder T.
Variable decode_errorResp : decoder E.
Variable parse_url : string → option error.

Inductive data_value : Type :=
  | DataNil
  | DataPtr (t : T)
  | DataValue (j : json).

Record graphResponse : Type := { Data : data_value; Errors : list LegacyErr.graphErr }.

Definition dec_Data : decoder data_value := λ j old,
  match j, old with
  | JNull, _ => (DataNil, None)
  | _, DataPtr t => let '(t', e) := decode_target j t in (DataPtr t', e)
  | JNum n, _ =>
      match float64_of n with
      | Some f => (DataValue (JNum f), None)
      | None => (old, Some (UnmarshalTypeError "number" "float64"))
      end
  | _, _ => let '(v, e) := generic j in (DataValue v, e)
  end.

(** What the caller's pointer points to once the members of the response
    object have been decoded.  While the interface holds the pointer, every
    [data] member that is not [null] is decoded through it; a [data] member
    that is [null] sets the interface to nil, and from then on nothing is
    written through the pointer. *)
Fixpoint written (ms : list (string * json)) (t : T) : T :=
  match ms with
  | [] => t
  | (k, j) :: r =>
      if bool_decide (foldName k = foldName "Data")
      then match j with
           | JNull => t
           | _ => written r (decode_target j t).1
           end
      else written r t
  end.

(** The caller's target after the body has been decoded. *)
Definition target_after (target : option T) (body : option json) : option T :=
  match target, body with
  | Some t, Some (JObj ms) => Some (written ms t)
  | _, _ => target
  end.

Definition graphResponse_fields : fields graphResponse :=
  [ ("Data", at_field Data (λ a g, {| Data := a; Errors := Errors g |}) dec_Data);
    ("Errors",
      at_field Errors (λ a g, {| Data := Data g; Errors := a |})
        (dec_slice LegacyErr.dec_graphErr LegacyErr.zero_graphErr "[]graphErr")) ].

Definition Decode (body : option json) (gr : graphResponse)
  : option graphResponse * option json_error :=
  match body with
  | None => (Some gr, Some SyntaxError)
  | Some JNull => (None, None)
  | Some j => let '(g, e) := dec_struct graphResponse_fields "graphResponse" j gr in (Some g, e)
  end.

(** [json.Unmarshal(bytes, &errorResp)]: bytes that are no JSON text are
    rejected before anything is written; [null] and a nil [errorResp] only
    touch the local interface variable. *)
Definition Unmarshal (body : option json) (errorResp : option E)
  : option E * option json_error :=
  match body, errorResp with
  | None, _ => (errorResp, Some SyntaxError)
  | Some JNull, _ => (errorResp, None)
  | Some j, Some t => let '(t', e) := decode_errorResp j t in (Some t', e)
  | Some _, None => (None, None)
  end.

Record run_result : Type := {
  returned : outcome (option error);
  sent : list http_request;
  target : option T;
  error_target : option E
}.

Definition interface_of (resp : option T) : data_value :=
  match resp with None => DataNil | Some t => DataPtr t end.

Definition fail (e : error) (s : list http_request) (resp : option T)
    (errorResp : option E) : run_result :=
  {| returned := Return (Some e); sent := s; target := resp; error_target := errorResp |}.

Definition NewRequest (c : Client) (h : http_Header) (b : request_body) : http_request :=
  {| Method := "POST"; URL := url c; ReqHeader := h; Body := b; Close := closeReq c |}.

(** The end of both paths: [gr.Errors[0]] when there is one; [gr] is nil
    after a [null] body, and reading [gr.Errors] panics. *)
Definition first_error_of (g : option graphResponse) : outcome (option error) :=
  match g with
  | None => Panic
  | Some gr =>
      match Errors gr with
      | e :: _ => Return (Some (GraphError e))
      | [] => Return None
      end
  end.

Definition runWithJSON (c : Client) (req : GraphqlRequest) (resp : option T)
    (errorResp : option E) (ch : choices) : run_result :=
  match json_body req with
  | inr err => fail err [] resp errorResp
  | inl requestBody =>
      let gr := {| Data := interface_of resp; Errors := [] |} in
      match parse_url (url c) with
      | Some err => fail err [] resp errorResp
      | None =>
          let r := NewRequest c
                     (addHTTPHeaders ∅ (header_order ch) "application/json; charset=utf-8")
                     (JSONBody requestBody) in
          match httpClient c with
          | None =>
              {| returned := Panic; sent := []; target := resp; error_target := errorResp |}
          | Some Do =>
              match Do r with
              | inr err => fail err [r] resp errorResp
              | inl res =>
                  match RespBody res with
                  | Unreadable err => fail (Wrap err "reading body") [r] resp errorResp
                  | Readable buf =>
                      if negb (StatusCode res =? StatusOK)%Z
                      then
                        fail (StatusNotOK (StatusCode res)) [r] resp
                          (Unmarshal (text buf) errorResp).1
                      else
                        match Decode (text buf) gr with
                        | (g, Some err) =>
                            {| returned :=
                                 Return (Some (Wrap (JSONError err) "decoding response"));
                               sent := [r]; target := target_after resp (text buf);
                               error_target := errorResp |}
                        | (g, None) =>
                            {| returned := first_error_of g;
                               sent := [r]; target := target_after resp (text buf);
                               error_target := errorResp |}
                        end
                  end
              end
          end
      end
  end.

Definition runWithPostFields (c : Client) (req : GraphqlRequest) (resp : option T)
    (errorResp : option E) (ch : choices) : run_result :=
  match multipart_parts req with
  | inr err => fail err [] resp errorResp
  | inl parts =>
      let gr := {| Data := interface_of resp; Errors := [] |} in
      match parse_url (url c) with
      | Some err => fail err [] resp errorResp
      | None =>
          let r := NewRequest c
                     (addHTTPHeaders ∅ (header_order ch)
                        (FormDataContentType (boundary_choice ch)))
                     (MultipartBody (boundary_choice ch) parts) in
          match httpClient c with
          | None =>
              {| returned := Panic; sent := []; target := resp; error_target := errorResp |}
          | Some Do =>
              match Do r with
              | inr err => fail err [r] resp errorResp
              | inl res =>
                  match RespBody res with
                  | Unreadable err => fail (Wrap err "reading body") [r] resp errorResp
                  | Readable buf =>
                      match Decode (text buf) gr with
                      | (g, Some err) =>
                          if negb (StatusCode res =? StatusOK)%Z
                          then
                            {| returned := Return (Some (StatusNotOK (StatusCode res)));
                               sent := [r]; target := target_after resp (text buf);
                               error_target := (Unmarshal (after_decoder buf) errorResp).1 |}
                          else
                            {| returned :=
                                 Return (Some (Wrap (JSONError err) "decoding response"));
                               sent := [r]; target := target_after resp (text buf);
                               error_target := errorResp |}
                      | (g, None) =>
                          {| returned := first_error_of g;
                             sent := [r]; target := target_after resp (text buf);
                             error_target := errorResp |}
                      end
                  end
              end
          end
      end
  end.

Definition Run (c : Client) (ctx : Context) (req : GraphqlRequest)
    (resp : option T) (errorResp : option E) (ch : choices) : run_result :=
  match ctx with
  | Some e =>
      {| returned := Return (Some (ContextErr e)); sent := [];
         target := resp; error_target := errorResp |}
  | None =>
      if (0 <? length (files req))%nat && negb (useMultipartForm c)
      then fail (ErrorsNew "cannot send files with PostFields option") [] resp errorResp
      else if useMultipartForm c
           then runWithPostFields c req resp errorResp ch
           else runWithJSON c req resp errorResp ch
  end.

End run.
End Legacy.

(** ** Vocabulary of the properties *)


(** A sequence of [Var] calls on a request, first call first. *)
Definition set_all (calls : list (string * govalue)) (req : GraphRequest) : GraphRequest :=
  foldl (λ r kv, Var kv.1 kv.2 r) req calls.

(** The value given by the last call for a key, if there is one. *)
Fixpoint last_write (k : string) (calls : list (string * govalue)) : option govalue :=
  match calls with
  | [] => None
  | (k', v) :: r =>
      match last_write k r with
      | Some v' => Some v'
      | None => if String.eqb k k' then Some v else None
      end
  end.

(** The variables of a request as a map: the nil map has no entry. *)
Definition vars_map (req : GraphRequest) : gmap string govalue :=
  match vars req with None => ∅ | Some m => m end.

(** The Content-Type of the encoder the client's mode selects. *)
Definition content_type_of (c : Client) (ch : choices) : string :=
  if useMultipartForm c then FormDataContentType (boundary_choice ch)
  else "application/json; charset=utf-8".

(** The shape of a request that reached the transport: its headers, and the
    body of the encoder that the client's mode selects. *)
Definition request_shape (c : Client) (req : GraphRequest) (ch : choices)
    (r : http_request) : Prop :=
  Method r = "POST" ∧ URL r = url c ∧ Close r = closeReq c
  ∧ ReqHeader r = addHTTPHeaders ∅ (header_order ch) (content_type_of c ch)
  ∧ if useMultipartForm c
    then ∃ ps, multipart_parts req = inl ps ∧ Body r = MultipartBody (boundary_choice ch) ps
    else ∃ j, json_body req = inl j ∧ Body r = JSONBody j.

(** ** Test doubles and sample values *)

(** A target of type [*interface{}]: it accepts every JSON value. *)
Definition generic_target : decoder json := dec_interface.

(** An endpoint whose URL parses. *)
Definition url_parses : string → option error := λ _, None.

(** A transport double that answers every request with one response. *)
Definition transport_double (code : Z) (body : option json) : HTTPDoer := λ _,
  inl {| StatusCode := code;
         RespBody := Readable {| text := body; after_decoder := None |} |}.

Definition client_with (multipart : bool) (d : HTTPDoer) : Client :=
  {| url := "https://api.test/graphql"; httpClient := Some d;
     useMultipartForm := multipart; closeReq := false |}.

Definition no_headers : choices := {| header_order := []; boundary_choice := "b0" |}.

Definition sample_file : File :=
  {| Field := "file"; Name := "a.txt"; R := {| content := [x68; x69]; failure := None |} |}.

(** [{"data":null,"errors":[{"message":"not found","path":["item"]}]}] *)
Definition not_found_body : json :=
  JObj [ ("data", JNull);
         ("errors", JArr [ JObj [ ("message", JStr "not found");
                                  ("path", JArr [JStr "item"]) ] ]) ].

(** ** Building requests and clients *)

(** The two calls that change a request. *)
Inductive request_call : Type :=
  | CallVar (key : string) (value : govalue)
  | CallFile (fieldname filename : string) (r : Reader).

Definition apply_call (req : GraphRequest) (call : request_call) : GraphRequest :=
  match call with
  | CallVar key value => Var key value req
  | CallFile fieldname filename r => AttachFile fieldname filename r req
  end.

(** A sequence of calls on a request, first call first. *)
Definition apply_calls (calls : list request_call) (req : GraphRequest) : GraphRequest :=
  foldl apply_call req calls.

(** The [Var] calls of a sequence and the files of its [File] calls, in
    call order. *)
Definition var_calls (calls : list request_call) : list (string * govalue) :=
  omap (λ call, match call with CallVar k v => Some (k, v) | _ => None end) calls.

Definition file_calls (calls : list request_call) : list File :=
  omap (λ call, match call with
                | CallFile f n r => Some {| Field := f; Name := n; R := r |}
                | _ => None
                end) calls.

(** The options the package offers. *)
Inductive package_option : Type :=
  | OptHTTPClient (d : HTTPDoer)
  | OptMultipartForm
  | OptCloseReqBody.

Definition option_of (o : package_option) : ClientOption :=
  match o with
  | OptHTTPClient d => WithHTTPClient d
  | OptMultipartForm => UseMultipartForm
  | OptCloseReqBody => ImmediatelyCloseReqBody
  end.

Definition is_multipart_option (o : package_option) : bool :=
  match o with OptMultipartForm => true | _ => false end.

Definition is_close_option (o : package_option) : bool :=
  match o with OptCloseReqBody => true | _ => false end.

(** The transport of the last [WithHTTPClient] of a list of options. *)
Fixpoint last_transport (opts : list package_option) : option HTTPDoer :=
  match opts with
  | [] => None
  | o :: r =>
      match last_transport r with
      | Some d => Some d
      | None => match o with OptHTTPClient d => Some d | _ => None end
      end
  end.

(** The values of the entries that [range] yields under one canonical
    name, in the order it yields them. *)
Definition values_under (K : string) (order : list (string * list string)) : list string :=
  concat (snd <$> filter (λ kv, CanonicalMIMEHeaderKey kv.1 = K) order).

(** A path segment that a [[]string] takes: a string, or [null]. *)
Definition string_or_null (j : json) : bool :=
  match j with JStr _ | JNull => true | _ => false end.

(** More test doubles: a transport that fails, one whose body cannot be
    read, an endpoint whose URL does not parse. *)
Definition failing_transport (e : error) : HTTPDoer := λ _, inr e.

Definition unreadable_transport (code : Z) (e : error) : HTTPDoer := λ _,
  inl {| StatusCode := code; RespBody := Unreadable e |}.

Definition url_rejected (e : error) : string → option error := λ _, Some e.

(** * Properties *)

(** ** The guards of [Run] *)

(** C4. When the context is already cancelled or expired, [Run] returns the
    context's error and hands nothing to the transport, whatever the
    request's attachments and the client's mode; this holds in the unified
    and in the legacy client, and the caller's targets are left alone. *)
Theorem Run_cancelled_context :
  ∀ (T E : Type) (dT : decoder T) (dE : decoder E) (pu : string → option error)
    (c : Client) (e : ctx_error) (req : GraphRequest)
    (target : option T) (errorResp : option E) (ch : choices),
    Unified.returned (Unified.Run dT pu c (Some e) req target ch)
      = Return (None, Some (ContextErr e))
    ∧ Unified.sent (Unified.Run dT pu c (Some e) req target ch) = []
    ∧ Legacy.returned (Legacy.Run dT dE pu c (Some e) req target errorResp ch)
      = Return (Some (ContextErr e))
    ∧ Legacy.sent (Legacy.Run dT dE pu c (Some e) req target errorResp ch) = [].
Proof. intros. cbn. auto. Qed.

(** C3.  For a request with at least one file and a client that is not in
    multipart mode, [Run] hands nothing to the transport, whatever the
    context; and reached with a live context (the context guard stands
    first), this guard makes [Run] return the configuration-mismatch error.
    Unified and legacy client alike. *)
Theorem Run_files_without_multipart :
  ∀ (T E : Type) (dT : decoder T) (dE : decoder E) (pu : string → option error)
    (c : Client) (ctx : Context) (req : GraphRequest)
    (target : option T) (errorResp : option E) (ch : choices),
    files req ≠ [] →
    useMultipartForm c = false →
    Unified.sent (Unified.Run dT pu c ctx req target ch) = []
    ∧ Legacy.sent (Legacy.Run dT dE pu c ctx req target errorResp ch) = []
    ∧ (ctx = None →
       Unified.returned (Unified.Run dT pu c ctx req target ch)
         = Return (None, Some (ErrorsNew "cannot send files with PostFields option"))
       ∧ Legacy.returned (Legacy.Run dT dE pu c ctx req target errorResp ch)
         = Return (Some (ErrorsNew "cannot send files with PostFields option"))).
Proof.
  intros T E dT dE pu c ctx req target errorResp ch Hfiles Hmode.
  unfold Unified.Run, Legacy.Run. rewrite Hmode.
  destruct (files req) as [|f fs]; [done|].
  destruct ctx as [e|]; cbn; repeat split; intros; try done.
Qed.

Lemma Run_files_without_multipart_witness :
  let req := AttachFile "file" "a.txt" (R sample_file) (NewGraphqlRequest "query {x}") in
  let c := client_with false (transport_double 200 None) in
  Unified.sent (Unified.Run generic_target url_parses c None req None no_headers) = []
  ∧ Legacy.sent
      (Legacy.Run generic_target generic_target url_parses c None req None None no_headers)
    = []
  ∧ ((None : Context) = None →
     Unified.returned (Unified.Run generic_target url_parses c None req None no_headers)
       = Return (None, Some (ErrorsNew "cannot send files with PostFields option"))
     ∧ Legacy.returned
         (Legacy.Run generic_target generic_target url_parses c None req None None no_headers)
       = Return (Some (ErrorsNew "cannot send files with PostFields option"))).
Proof.
  intros req c.
  apply (Run_files_without_multipart json json generic_target generic_target
           url_parses c None req None None no_headers).
  - discriminate.
  - reflexivity.
Defined.

(** ** Status and body *)

(** Case analysis over the paths of [Run]. *)
Ltac same_call :=
  repeat match goal with
         | H1 : ?x = ?a, H2 : ?x = ?b |- _ => rewrite H1 in H2; simplify_eq/=
         end.

Ltac run_paths :=
  unfold Unified.Run, Unified.runWithJSON, Unified.runWithPostFields, Unified.fail,
    Unified.NewRequest,
    Legacy.Run, Legacy.runWithJSON, Legacy.runWithPostFields, Legacy.fail,
    Legacy.NewRequest, messageCodeNotOK in *;
  repeat (case_match; simplify_eq/=; same_call); try done.

(** In JSON mode the status is looked at before the body: a non-200
    response yields the status error whatever the body holds, in both
    generations of the client. *)
Lemma runWithJSON_status_first :
  ∀ (T E : Type) (dT : decoder T) (dE : decoder E) (pu : string → option error)
    (c : Client) (req : GraphRequest) (target : option T) (errorResp : option E)
    (ch : choices) (Do : HTTPDoer) (r : http_request) (res : http_response)
    (buf : body_bytes),
    useMultipartForm c = false →
    httpClient c = Some Do →
    Unified.sent (Unified.Run dT pu c None req target ch) = [r] →
    Do r = inl res →
    RespBody res = Readable buf →
    StatusCode res ≠ StatusOK →
    Unified.returned (Unified.Run dT pu c None req target ch)
      = Return (None, Some (StatusNotOK (StatusCode res)))
    ∧ Legacy.returned (Legacy.Run dT dE pu c None req target errorResp ch)
      = Return (Some (StatusNotOK (StatusCode res))).
Proof.
  intros * Hmode Hdo Hsent Hres Hbody Hcode.
  assert ((StatusCode res =? StatusOK)%Z = false) as Hneq by (by apply Z.eqb_neq).
  split; run_paths; rewrite ?Hneq in *; simplify_eq/=; try done.
Qed.

(** C1, at the failing input.  A client in multipart mode receives status
    500 with a body that is a well-formed envelope: the unified [Run]
    returns the envelope with a nil error, and the legacy [Run] returns the
    body's first GraphQL error; neither returns the status error. *)
Theorem multipart_non200_parsed_body_returned :
  let c := client_with true (transport_double 500 (Some not_found_body)) in
  let req := NewGraphqlRequest "query {x}" in
  Unified.returned (Unified.Run generic_target url_parses c None req None no_headers)
    = Return
        (Some {| Unified.Data := Unified.DataNil;
                 Unified.Errors :=
                   [ {| Message := JStr "not found"; ErrorExtensions := ∅;
                        Locations := []; Path := ["item"] |} ] |},
         None)
  ∧ Legacy.returned
      (Legacy.Run generic_target generic_target url_parses c None req None None no_headers)
    = Return (Some (GraphError {| LegacyErr.Message := "not found";
                                  LegacyErr.ErrorExtensions := ∅ |})).
Proof. split; vm_compute; reflexivity. Qed.

(** C2, as the claim states it, fails in the unified client: on status 200
    with an envelope whose error list is not empty, the error result of
    [Run] is nil, not the first error of the list. *)
Lemma Run_errors_returned_in_envelope_counterexample :
  let c := client_with false (transport_double 200 (Some not_found_body)) in
  let req := NewGraphqlRequest "query {x}" in
  ∃ env : Unified.GraphResponse,
    Unified.returned (Unified.Run generic_target url_parses c None req None no_headers)
      = Return (Some env, None)
    ∧ Unified.Errors env ≠ [].
Proof. eexists. split; [vm_compute; reflexivity | discriminate]. Qed.

(** C2, amended.  On status 200 with a body that decodes as the envelope
    with a non-empty error list: the unified [Run] returns the envelope,
    which carries the whole list in order, and a nil error; the legacy [Run]
    returns the first error of the list as its error.  Each generation
    decodes with its own error type, and each half holds for every body its
    own decoder takes. *)
Theorem Run_status_ok_errors :
  ∀ (T E : Type) (dT : decoder T) (dE : decoder E) (pu : string → option error)
    (c : Client) (req : GraphRequest) (target : option T) (errorResp : option E)
    (ch : choices) (Do : HTTPDoer) (r : http_request) (res : http_response)
    (buf : body_bytes),
    httpClient c = Some Do →
    Unified.sent (Unified.Run dT pu c None req target ch) = [r] →
    Legacy.sent (Legacy.Run dT dE pu c None req target errorResp ch) = [r] →
    Do r = inl res →
    StatusCode res = StatusOK →
    RespBody res = Readable buf →
    (∀ g : Unified.GraphResponse,
       Unified.Decode dT (text buf)
         {| Unified.Data := Unified.interface_of target; Unified.Errors := [] |}
         = (Some g, None) →
       Unified.Errors g ≠ [] →
       Unified.returned (Unified.Run dT pu c None req target ch) = Return (Some g, None))
    ∧ (∀ (g' : Legacy.graphResponse) (e : LegacyErr.graphErr)
         (es : list LegacyErr.graphErr),
         Legacy.Decode dT (text buf)
           {| Legacy.Data := Legacy.interface_of target; Legacy.Errors := [] |}
           = (Some g', None) →
         Legacy.Errors g' = e :: es →
         Legacy.returned (Legacy.Run dT dE pu c None req target errorResp ch)
         = Return (Some (GraphError e))).
Proof.
  intros * Hdo Hsent Hsent' Hres Hcode Hbody.
  split.
  - intros g Hdec Herrs. run_paths; rewrite ?Hcode in *; simplify_eq/=; done.
  - intros g' e es Hdec' Herrs'. run_paths; rewrite ?Hcode in *; simplify_eq/=; done.
Qed.

Lemma Run_status_ok_errors_witness :
  let c := client_with false (transport_double 200 (Some not_found_body)) in
  let req := NewGraphqlRequest "query {x}" in
  Unified.returned (Unified.Run generic_target url_parses c None req None no_headers)
    = Return
        (Some {| Unified.Data := Unified.DataNil;
                 Unified.Errors :=
                   [ {| Message := JStr "not found"; ErrorExtensions := ∅;
                        Locations := []; Path := ["item"] |} ] |},
         None)
  ∧ Legacy.returned
      (Legacy.Run generic_target generic_target url_parses c None req None None no_headers)
    = Return (Some (GraphError {| LegacyErr.Message := "not found";
                                  LegacyErr.ErrorExtensions := ∅ |})).
Proof.
  intros c req.
  edestruct (Run_status_ok_errors json json generic_target generic_target url_parses
               c req None None no_headers (transport_double 200 (Some not_found_body)))
    with (res := {| StatusCode := 200;
                    RespBody := Readable {| text := Some not_found_body;
                                            after_decoder := None |} |})
    as [Hunified Hlegacy]; [reflexivity..|].
  split.
  - apply Hunified; [reflexivity | discriminate].
  - eapply Hlegacy; reflexivity.
Defined.

(** In the legacy JSON path a non-200 response yields the status error
    whatever [json.Unmarshal] into the error target reports; the error
    target holds what that call left in it. *)
Lemma legacy_runWithJSON_unmarshal_discarded :
  ∀ (T E : Type) (dT : decoder T) (dE : decoder E) (pu : string → option error)
    (c : Client) (req : GraphRequest) (resp : option T) (errorResp : option E)
    (ch : choices) (Do : HTTPDoer) (r : http_request) (res : http_response)
    (buf : body_bytes),
    useMultipartForm c = false →
    httpClient c = Some Do →
    Legacy.sent (Legacy.Run dT dE pu c None req resp errorResp ch) = [r] →
    Do r = inl res →
    RespBody res = Readable buf →
    StatusCode res ≠ StatusOK →
    Legacy.returned (Legacy.Run dT dE pu c None req resp errorResp ch)
      = Return (Some (StatusNotOK (StatusCode res)))
    ∧ Legacy.error_target (Legacy.Run dT dE pu c None req resp errorResp ch)
      = (Legacy.Unmarshal dE (text buf) errorResp).1.
Proof.
  intros * Hmode Hdo Hsent Hres Hbody Hcode.
  assert ((StatusCode res =? StatusOK)%Z = false) as Hneq by (by apply Z.eqb_neq).
  split; run_paths; rewrite ?Hneq in *; simplify_eq/=; try done.
Qed.

(** In the legacy multipart path the same holds once the envelope has
    failed to decode; the bytes handed to [json.Unmarshal] are those the
    decoder left in the buffer. *)
Lemma legacy_runWithPostFields_unmarshal_discarded :
  ∀ (T E : Type) (dT : decoder T) (dE : decoder E) (pu : string → option error)
    (c : Client) (req : GraphRequest) (resp : option T) (errorResp : option E)
    (ch : choices) (Do : HTTPDoer) (r : http_request) (res : http_response)
    (buf : body_bytes) (g : option Legacy.graphResponse) (err : json_error),
    useMultipartForm c = true →
    httpClient c = Some Do →
    Legacy.sent (Legacy.Run dT dE pu c None req resp errorResp ch) = [r] →
    Do r = inl res →
    RespBody res = Readable buf →
    StatusCode res ≠ StatusOK →
    Legacy.Decode dT (text buf)
      {| Legacy.Data := Legacy.interface_of resp; Legacy.Errors := [] |}
      = (g, Some err) →
    Legacy.returned (Legacy.Run dT dE pu c None req resp errorResp ch)
      = Return (Some (StatusNotOK (StatusCode res)))
    ∧ Legacy.error_target (Legacy.Run dT dE pu c None req resp errorResp ch)
      = (Legacy.Unmarshal dE (after_decoder buf) errorResp).1.
Proof.
  intros * Hmode Hdo Hsent Hres Hbody Hcode Hdec.
  assert ((StatusCode res =? StatusOK)%Z = false) as Hneq by (by apply Z.eqb_neq).
  split; run_paths; rewrite ?Hneq in *; simplify_eq/=; try done.
Qed.

(** C10, at the failing input.  A legacy client in multipart mode receives
    status 500 with the body [{"data":null,"errors":[]}]; the caller's error
    target is a string, into which that body does not unmarshal.  [Run]
    returns nil instead of the status error, and the error target is left
    as it was. *)
Theorem legacy_multipart_non200_returns_nil :
  let body := JObj [("data", JNull); ("errors", JArr [])] in
  let c := client_with true (transport_double 500 (Some body)) in
  let req := NewGraphqlRequest "query {x}" in
  let run := Legacy.Run generic_target dec_string url_parses c None req None (Some "")
               no_headers in
  (Legacy.Unmarshal dec_string (Some body) (Some "")).2
    = Some (UnmarshalTypeError "object" "string")
  ∧ Legacy.returned run = Return None
  ∧ Legacy.error_target run = Some ""
  ∧ length (Legacy.sent run) = 1%nat.
Proof. repeat split; vm_compute; reflexivity. Qed.

(** ** Decoding the error model *)

(** An induction principle that reaches the elements of arrays and the
    values of members. *)
Lemma json_nested_ind (P : json → Prop) :
  P JNull →
  (∀ b, P (JBool b)) →
  (∀ n, P (JNum n)) →
  (∀ s, P (JStr s)) →
  (∀ items, Forall P items → P (JArr items)) →
  (∀ ms, Forall (λ kv, P kv.2) ms → P (JObj ms)) →
  ∀ j, P j.
Proof.
  intros Hnull Hbool Hnum Hstr Harr Hobj. fix IH 1.
  intros [| b | n | s | items | ms].
  - apply Hnull.
  - apply Hbool.
  - apply Hnum.
  - apply Hstr.
  - apply Harr. induction items as [|x items IHl]; constructor; [apply IH|apply IHl].
  - apply Hobj. induction ms as [|[k v] ms IHl]; constructor; [apply IH|apply IHl].
Qed.

Lemma float64_of_exact (n : Z) : (Z.abs n <=? 2 ^ 53)%Z = true → float64_of n = Some n.
Proof.
  intros Hn%Z.leb_le. unfold float64_of.
  destruct (Z.abs n <? 2 ^ 53)%Z eqn:Hlt; [done|].
  apply Z.ltb_ge in Hlt.
  assert (n = 2 ^ 53 ∨ n = - 2 ^ 53)%Z as [->| ->] by lia; vm_compute; reflexivity.
Qed.

(** The generic form of a value is made without a mismatch exactly when
    every number in it fits a float64. *)
Lemma generic_fits (j : json) : (generic j).2 = None ↔ numbers_fit j = true.
Proof.
  induction j as [| b | n | s | items IH | ms IH] using json_nested_ind; simpl; try done.
  - destruct (float64_of n); simpl; by split.
  - induction IH as [|x items Hx _ IHl]; simpl; [done|].
    rewrite andb_true_iff, <- IHl, <- Hx.
    destruct (generic x) as [x' [e|]]; simpl; intuition congruence.
  - induction IH as [|[k v] ms Hv _ IHl]; simpl; [done|].
    simpl in Hv. rewrite andb_true_iff, <- IHl, <- Hv.
    destruct (generic v) as [v' [e|]]; simpl; intuition congruence.
Qed.

(** A value whose numbers are float64 already is its own generic form. *)
Lemma generic_exact (j : json) : numbers_exact j = true → generic j = (j, None).
Proof.
  induction j as [| b | n | s | items IH | ms IH] using json_nested_ind; simpl; try done.
  - intros Hn. by rewrite (float64_of_exact n Hn).
  - intros Hall.
    assert (map generic items = map (λ x, (x, None)) items) as ->.
    { induction IH as [|x items Hx _ IHl]; simpl in *; [done|].
      apply andb_true_iff in Hall as [Hx' Hall]. by rewrite (Hx Hx'), (IHl Hall). }
    rewrite !map_map. simpl. rewrite map_id. f_equal.
    clear IH Hall. by induction items as [|x items IHl].
  - intros Hall.
    assert (map (λ kv : string * json, let '(k, v) := kv in (k, generic v)) ms
            = map (λ kv, (kv.1, (kv.2, None))) ms) as ->.
    { induction IH as [|[k v] ms Hv _ IHl]; simpl in *; [done|].
      apply andb_true_iff in Hall as [Hv' Hall]. by rewrite (Hv Hv'), (IHl Hall). }
    rewrite !map_map. simpl.
    assert (map (λ x : string * json, (x.1, x.2)) ms = ms) as ->.
    { clear IH Hall. induction ms as [|[k v] ms IHl]; simpl; [done|]. by rewrite IHl. }
    f_equal. clear IH Hall. by induction ms as [|x ms IHl].
Qed.

Lemma dec_interface_fits (j old : json) :
  (dec_interface j old).2 = None ↔ numbers_fit j = true.
Proof.
  destruct j; try apply generic_fits. simpl.
  destruct (float64_of n); simpl; by split.
Qed.

Lemma dec_interface_exact (j old : json) :
  numbers_exact j = true → dec_interface j old = (j, None).
Proof.
  destruct j; try apply generic_exact. simpl. intros Hn.
  by rewrite (float64_of_exact n Hn).
Qed.

(** C9, as the claim states it, fails for the [GraphErr] that declares
    [Message string]: a structured message does not decode into it. *)
Lemma structured_message_rejected_counterexample :
  (StringMessage.dec_GraphErr (JObj [("message", JObj [("code", JNum 42)])])
     StringMessage.zero_GraphErr).2
  = Some (UnmarshalTypeError "object" "string").
Proof. reflexivity. Qed.

(** C9, amended.  Into the [GraphErr] that declares [Message interface{}],
    the [message] member decodes without a mismatch whether it is a JSON
    string or a structured value, exactly when every number in it fits a
    float64; a string is stored as it is, and so is every value whose numbers
    are float64 already.  Into the error types that declare [Message string]
    (the other [GraphErr] and the legacy [graphErr]) the member decodes
    exactly when it is a string or [null]. *)
Theorem GraphErr_message_accepted :
  ∀ (m : json),
    ((dec_GraphErr (JObj [("message", m)]) zero_GraphErr).2 = None
     ↔ numbers_fit m = true)
    ∧ (numbers_exact m = true →
       dec_GraphErr (JObj [("message", m)]) zero_GraphErr
       = ({| Message := m; ErrorExtensions := ∅; Locations := []; Path := [] |}, None))
    ∧ (∀ s : string,
         dec_GraphErr (JObj [("message", JStr s)]) zero_GraphErr
         = ({| Message := JStr s; ErrorExtensions := ∅; Locations := []; Path := [] |},
            None))
    ∧ ((StringMessage.dec_GraphErr (JObj [("message", m)]) StringMessage.zero_GraphErr).2
         = None ↔ string_or_null m = true)
    ∧ ((LegacyErr.dec_graphErr (JObj [("message", m)]) LegacyErr.zero_graphErr).2
         = None ↔ string_or_null m = true).
Proof.
  intros m.
  assert (dec_GraphErr (JObj [("message", m)]) zero_GraphErr
          = ({| Message := (dec_interface m JNull).1; ErrorExtensions := ∅;
                Locations := []; Path := [] |}, (dec_interface m JNull).2)) as Hdec.
  { unfold dec_GraphErr, dec_struct. simpl. unfold dec_member. simpl.
    unfold at_field. simpl. by destruct (dec_interface m JNull) as [v [e|]]. }
  split; [|split; [|split; [|split]]].
  - rewrite Hdec. simpl. apply dec_interface_fits.
  - intros Hexact. rewrite Hdec. by rewrite (dec_interface_exact m JNull Hexact).
  - intros s. reflexivity.
  - destruct m; simpl; split; done.
  - destruct m; simpl; split; done.
Qed.

Lemma GraphErr_message_accepted_witness :
  dec_GraphErr (JObj [("message", JObj [("code", JNum 42); ("why", JArr [JStr "x"])])])
    zero_GraphErr
  = ({| Message := JObj [("code", JNum 42); ("why", JArr [JStr "x"])];
        ErrorExtensions := ∅; Locations := []; Path := [] |}, None).
Proof.
  apply (proj1 (proj2 (GraphErr_message_accepted
                         (JObj [("code", JNum 42); ("why", JArr [JStr "x"])])))).
  reflexivity.
Defined.

(** A number beyond float64 in the message is a mismatch, and a number that
    is no float64 is stored as the nearest one. *)
Example GraphErr_message_numbers_sample :
  (dec_GraphErr (JObj [("message", JArr [JNum (10 ^ 400)])]) zero_GraphErr).2
    = Some (UnmarshalTypeError "number" "float64")
  ∧ Message (dec_GraphErr (JObj [("message", JNum (2 ^ 53 + 1))]) zero_GraphErr).1
    = JNum (2 ^ 53).
Proof. split; vm_compute; reflexivity. Qed.

(** The two error types that declare [Message string] accept a string and
    reject a structured message with a type mismatch. *)
Lemma string_Message_rejects_structured :
  ∀ (ms : list (string * json)),
    (StringMessage.dec_GraphErr (JObj [("message", JObj ms)]) StringMessage.zero_GraphErr).2
      = Some (UnmarshalTypeError "object" "string")
    ∧ (LegacyErr.dec_graphErr (JObj [("message", JObj ms)]) LegacyErr.zero_graphErr).2
      = Some (UnmarshalTypeError "object" "string").
Proof. intros ms. split; reflexivity. Qed.

Lemma string_Message_accepts_string :
  ∀ (s : string),
    StringMessage.dec_GraphErr (JObj [("message", JStr s)]) StringMessage.zero_GraphErr
      = ({| StringMessage.Message := s; StringMessage.ErrorExtensions := ∅;
            StringMessage.Locations := []; StringMessage.Path := [] |}, None).
Proof. intros s. reflexivity. Qed.

(** ** Headers *)

Section headers.
Implicit Types (h : http_Header) (order : list (string * list string)).

Lemma index_Header_Add h key value K :
  index (Header_Add key value h) K
  = if decide (K = CanonicalMIMEHeaderKey key) then (index h K ++ [value])%list
    else index h K.
Proof.
  unfold Header_Add, index. case_decide as HK.
  - subst K. by rewrite lookup_insert_eq.
  - by rewrite lookup_insert_ne.
Qed.

Lemma index_add_values key values : ∀ h K,
  index (add_values key values h) K
  = if decide (K = CanonicalMIMEHeaderKey key) then (index h K ++ values)%list
    else index h K.
Proof.
  unfold add_values. induction values as [|v vs IH]; intros h K; simpl.
  - case_decide; by rewrite ?app_nil_r.
  - rewrite IH, index_Header_Add. case_decide; [|done].
    by rewrite <- app_assoc.
Qed.

(** Adding entries only appends: what a name held stays in front. *)
Lemma index_add_entries_prefix order : ∀ h K,
  ∃ post, index (add_entries order h) K = (index h K ++ post)%list.
Proof.
  unfold add_entries. induction order as [|[k vs] order IH]; intros h K; simpl.
  - exists []. by rewrite app_nil_r.
  - destruct (IH (add_values k vs h) K) as [post ->].
    rewrite index_add_values. case_decide.
    + exists (vs ++ post)%list. by rewrite app_assoc.
    + by exists post.
Qed.

(** Entries under other names leave a name alone. *)
Lemma index_add_entries_other order : ∀ h K,
  (∀ kv, kv ∈ order → CanonicalMIMEHeaderKey kv.1 ≠ K) →
  index (add_entries order h) K = index h K.
Proof.
  unfold add_entries. induction order as [|[k vs] order IH]; intros h K Hother; simpl.
  - done.
  - rewrite IH by (intros kv Hkv; apply Hother; by right).
    rewrite index_add_values. case_decide as HK; [|done].
    exfalso. by apply (Hother (k, vs)); [left|].
Qed.

Lemma add_entries_app order1 order2 h :
  add_entries (order1 ++ order2) h = add_entries order2 (add_entries order1 h).
Proof. unfold add_entries. by rewrite foldl_app. Qed.

(** The values of an entry appear together and in order under its name. *)
Lemma index_add_entries_infix order h k vs :
  (k, vs) ∈ order →
  ∃ pre post,
    index (add_entries order h) (CanonicalMIMEHeaderKey k) = (pre ++ vs ++ post)%list.
Proof.
  intros (l1 & l2 & ->)%list_elem_of_split.
  rewrite add_entries_app.
  change (add_entries ((k, vs) :: l2) ?x) with (add_entries l2 (add_values k vs x)).
  destruct (index_add_entries_prefix l2 (add_values k vs (add_entries l1 h))
              (CanonicalMIMEHeaderKey k)) as [post ->].
  rewrite index_add_values, decide_True by done.
  eexists _, post. by rewrite <- app_assoc.
Qed.

(** When no other entry shares the canonical name, the name holds what it
    held before followed by exactly the entry's values. *)
Lemma index_add_entries_exact order h k vs :
  NoDup (order.*1) →
  (k, vs) ∈ order →
  (∀ kv, kv ∈ order →
     CanonicalMIMEHeaderKey kv.1 = CanonicalMIMEHeaderKey k → kv.1 = k) →
  index (add_entries order h) (CanonicalMIMEHeaderKey k)
  = (index h (CanonicalMIMEHeaderKey k) ++ vs)%list.
Proof.
  intros Hnd (l1 & l2 & ->)%list_elem_of_split Hclass.
  rewrite fmap_app, fmap_cons in Hnd. simpl in Hnd.
  apply NoDup_app in Hnd as (_ & Hl1 & [Hl2 _]%NoDup_cons).
  rewrite add_entries_app.
  change (add_entries ((k, vs) :: l2) ?x) with (add_entries l2 (add_values k vs x)).
  rewrite index_add_entries_other.
  - rewrite index_add_values, decide_True by done.
    rewrite index_add_entries_other; [done|].
    intros kv Hkv Hcanon.
    assert (kv.1 = k) as Hk.
    { apply Hclass; [|done]. apply elem_of_app. by left. }
    apply (Hl1 k); [|by left]. rewrite <- Hk. by apply list_elem_of_fmap_2.
  - intros kv Hkv Hcanon.
    assert (kv.1 = k) as Hk.
    { apply Hclass; [|done]. apply elem_of_app. right. by right. }
    apply Hl2. rewrite <- Hk. by apply list_elem_of_fmap_2.
Qed.

(** The two headers the client sets come first under their names. *)
Lemma addHTTPHeaders_Content_Type order ct :
  Header_Get (addHTTPHeaders ∅ order ct) "Content-Type" = ct.
Proof.
  unfold Header_Get, Header_Values, addHTTPHeaders.
  destruct (index_add_entries_prefix order
    (Header_Set "Accept" "application/json; charset=utf-8"
       (Header_Set "Content-Type" ct ∅))
    (CanonicalMIMEHeaderKey "Content-Type")) as [post ->].
  reflexivity.
Qed.

Lemma addHTTPHeaders_Accept order ct :
  Header_Get (addHTTPHeaders ∅ order ct) "Accept" = "application/json; charset=utf-8".
Proof.
  unfold Header_Get, Header_Values, addHTTPHeaders.
  destruct (index_add_entries_prefix order
    (Header_Set "Accept" "application/json; charset=utf-8"
       (Header_Set "Content-Type" ct ∅))
    (CanonicalMIMEHeaderKey "Accept")) as [post ->].
  reflexivity.
Qed.

End headers.

(** ** What is handed to the transport *)

Ltac sent_member H :=
  first [ apply elem_of_nil in H; destruct H
        | apply list_elem_of_singleton in H; subst ].

Lemma Unified_sent_shape {T : Type} (dT : decoder T) (pu : string → option error)
    (c : Client) (ctx : Context) (req : GraphRequest) (target : option T)
    (ch : choices) (r : http_request) :
  r ∈ Unified.sent (Unified.Run dT pu c ctx req target ch) →
  request_shape c req ch r.
Proof.
  intros Hr. unfold request_shape, content_type_of.
  run_paths; sent_member Hr; simpl; eauto 10.
Qed.

Lemma Legacy_sent_shape {T E : Type} (dT : decoder T) (dE : decoder E)
    (pu : string → option error) (c : Client) (ctx : Context) (req : GraphRequest)
    (resp : option T) (errorResp : option E) (ch : choices) (r : http_request) :
  r ∈ Legacy.sent (Legacy.Run dT dE pu c ctx req resp errorResp ch) →
  request_shape c req ch r.
Proof.
  intros Hr. unfold request_shape, content_type_of.
  run_paths; sent_member Hr; simpl; eauto 10.
Qed.


(** ** Encoding the variables *)









(** ** Setting variables *)

Lemma vars_map_Var (key : string) (value : govalue) (req : GraphRequest) :
  vars (Var key value req) = Some (<[key := value]> (vars_map req)).
Proof. reflexivity. Qed.

Lemma vars_set_all_allocated (calls : list (string * govalue)) :
  ∀ req, is_Some (vars req) → is_Some (vars (set_all calls req)).
Proof.
  induction calls as [|[k v] calls IH]; intros req Hreq; simpl; [done|].
  apply IH. by rewrite vars_map_Var.
Qed.

Lemma vars_map_set_all (calls : list (string * govalue)) (k : string) :
  ∀ req,
    vars_map (set_all calls req) !! k
    = match last_write k calls with
      | Some v => Some v
      | None => vars_map req !! k
      end.
Proof.
  induction calls as [|[k' v] calls IH]; intros req; simpl; [done|].
  change (set_all ((k', v) :: calls) req) with (set_all calls (Var k' v req)).
  rewrite IH. destruct (last_write k calls); [done|].
  unfold vars_map at 1. rewrite vars_map_Var.
  destruct (String.eqb_spec k k') as [->|Hne].
  - by rewrite lookup_insert_eq.
  - by rewrite lookup_insert_ne.
Qed.

(** ** The encoded bodies *)




(** The body of the witness above, evaluated; and the body for a query that
    is not valid UTF-8, where the stray byte goes out as U+FFFD. *)
Example JSON_mode_body_sample :
  let c := client_with false (transport_double 200 (Some not_found_body)) in
  let req := Var "key" (GString "value") (NewGraphqlRequest "query {x}") in
  let stray := NewGraphqlRequest (String "q" (String "255"%char "<")) in
  Body <$> Unified.sent (Unified.Run generic_target url_parses c None req None no_headers)
  = [ JSONBody (JObj [ ("query", JStr "query {x}");
                       ("variables", JObj [("key", JStr "value")]) ]) ]
  ∧ marshal_vars (vars (NewGraphqlRequest "query {x}")) = Some JNull
  ∧ Body <$> Unified.sent
               (Unified.Run generic_target url_parses c None stray None no_headers)
    = [ JSONBody (JObj [ ("query", JStr ("q" ++ replacement_char ++ "<"));
                         ("variables", JNull) ]) ].
Proof. repeat split; vm_compute; reflexivity. Qed.


Lemma copy_files_readable (fs : list File) :
  (∀ f, f ∈ fs → failure (R f) = None) → copy_files fs = inl (file_part <$> fs).
Proof.
  induction fs as [|f fs IH]; simpl; intros Hok; [done|].
  rewrite (Hok f) by (by left). rewrite IH; [done|].
  intros f' Hf'. apply Hok. by right.
Qed.







(** The body of the witness above, evaluated, and what a reader finds in it:
    the query, the variables [{"key":"value"}] and the file come back as
    they went in.  A file name with a quote is written with a backslash and
    read back whole; one with a line feed comes back with a percent code. *)
Example multipart_mode_body_sample :
  let c := client_with true (transport_double 200 (Some not_found_body)) in
  let req := AttachFile "file" "a.txt" (R sample_file)
               (Var "key" (GString "value") (NewGraphqlRequest "query {x}")) in
  let sent := Unified.sent
                (Unified.Run generic_target url_parses c None req None no_headers) in
  Body <$> sent
  = [ MultipartBody "b0"
        [ {| form_name := "query"; file_name := None; content_type := None;
             data := Text "query {x}" |};
          {| form_name := "variables"; file_name := None; content_type := None;
             data := JSONLine (JObj [("key", JStr "value")]) |};
          {| form_name := "file"; file_name := Some "a.txt";
             content_type := Some "application/octet-stream";
             data := Bytes [x68; x69] |} ] ]
  ∧ unquote (escapeQuotes (String "a" (String quote_char "b")))
    = String "a" (String quote_char "b")
  ∧ unquote (escapeQuotes (String "a" (String LF_char "b"))) = "a%0Ab".
Proof. repeat split; vm_compute; reflexivity. Qed.

(** ** The outgoing headers *)

(** C7. Every request handed to the transport carries the Content-Type of
    the encoder the client's mode selects and
    [Accept: application/json; charset=utf-8] as the first values of these
    names, so that the caller's entries never replace them; every entry of
    the request's header map is added to them: its values appear together
    and in order under its (canonical) name, and when no other entry shares
    that name and the name is neither of the two, the name holds exactly
    the entry's values.  Unified and legacy client alike. *)
Theorem outgoing_headers :
  ∀ (T E : Type) (dT : decoder T) (dE : decoder E) (pu : string → option error)
    (c : Client) (ctx : Context) (req : GraphRequest)
    (target : option T) (errorResp : option E) (ch : choices) (r : http_request),
    range_of (Header req) ch →
    r ∈ Unified.sent (Unified.Run dT pu c ctx req target ch)
    ∨ r ∈ Legacy.sent (Legacy.Run dT dE pu c ctx req target errorResp ch) →
    Header_Get (ReqHeader r) "Content-Type" = content_type_of c ch
    ∧ Header_Get (ReqHeader r) "Accept" = "application/json; charset=utf-8"
    ∧ (∀ k vs, Header req !! k = Some vs →
         ∃ pre post, Header_Values (ReqHeader r) k = (pre ++ vs ++ post)%list)
    ∧ (∀ k vs, Header req !! k = Some vs →
         (∀ k', is_Some (Header req !! k') →
                CanonicalMIMEHeaderKey k' = CanonicalMIMEHeaderKey k → k' = k) →
         CanonicalMIMEHeaderKey k ≠ "Content-Type" →
         CanonicalMIMEHeaderKey k ≠ "Accept" →
         Header_Values (ReqHeader r) k = vs).
Proof.
  intros * Hrange Hr.
  assert (request_shape c req ch r) as (_ & _ & _ & Hh & _).
  { destruct Hr as [Hr|Hr]; [by eapply Unified_sent_shape|by eapply Legacy_sent_shape]. }
  rewrite Hh. unfold range_of in Hrange.
  split; [apply addHTTPHeaders_Content_Type|].
  split; [apply addHTTPHeaders_Accept|].
  split.
  - intros k vs Hk. unfold Header_Values, addHTTPHeaders.
    apply index_add_entries_infix. rewrite Hrange. by apply elem_of_map_to_list.
  - intros k vs Hk Hclass Hct Haccept. unfold Header_Values, addHTTPHeaders.
    rewrite index_add_entries_exact with (vs := vs).
    + unfold index, Header_Set.
      change (CanonicalMIMEHeaderKey "Accept") with "Accept".
      change (CanonicalMIMEHeaderKey "Content-Type") with "Content-Type".
      by rewrite !lookup_insert_ne, lookup_empty by done.
    + rewrite Hrange. apply NoDup_fst_map_to_list.
    + rewrite Hrange. by apply elem_of_map_to_list.
    + intros [k' vs'] Hin. rewrite Hrange in Hin. apply elem_of_map_to_list in Hin.
      simpl. apply Hclass. by eexists.
Qed.

Lemma outgoing_headers_witness :
  let c := client_with false (transport_double 200 (Some not_found_body)) in
  let req := {| query := "query {x}"; vars := None; files := [];
                Header := {[ "X-Test" := ["a"; "b"] ]} |} in
  let ch := {| header_order := [("X-Test", ["a"; "b"])]; boundary_choice := "b0" |} in
  let r := {| Method := "POST"; URL := "https://api.test/graphql";
              ReqHeader := addHTTPHeaders ∅ (header_order ch)
                             "application/json; charset=utf-8";
              Body := JSONBody (JObj [("query", JStr "query {x}"); ("variables", JNull)]);
              Close := false |} in
  Header_Get (ReqHeader r) "Content-Type" = content_type_of c ch
  ∧ Header_Get (ReqHeader r) "Accept" = "application/json; charset=utf-8"
  ∧ (∀ k vs, Header req !! k = Some vs →
       ∃ pre post, Header_Values (ReqHeader r) k = (pre ++ vs ++ post)%list)
  ∧ (∀ k vs, Header req !! k = Some vs →
       (∀ k', is_Some (Header req !! k') →
              CanonicalMIMEHeaderKey k' = CanonicalMIMEHeaderKey k → k' = k) →
       CanonicalMIMEHeaderKey k ≠ "Content-Type" →
       CanonicalMIMEHeaderKey k ≠ "Accept" →
       Header_Values (ReqHeader r) k = vs).
Proof.
  intros c req ch r.
  apply (outgoing_headers json json generic_target generic_target url_parses c None req
           None None ch r).
  - unfold range_of. simpl. rewrite map_to_list_singleton. reflexivity.
  - left. simpl. left.
Defined.

(** The header example of the specification, evaluated: [X-Test: [a, b]]
    arrives with both values, next to the two headers of the client. *)
Example outgoing_headers_sample :
  let h := addHTTPHeaders ∅ [("X-Test", ["a"; "b"])] "application/json; charset=utf-8" in
  Header_Values h "X-Test" = ["a"; "b"]
  ∧ Header_Values h "Content-Type" = ["application/json; charset=utf-8"]
  ∧ Header_Values h "Accept" = ["application/json; charset=utf-8"].
Proof. repeat split; vm_compute; reflexivity. Qed.

(** An entry of the caller under [content-type] is appended after the value
    of the client, which stays the one [Get] returns. *)
Example caller_content_type_is_appended :
  let h := addHTTPHeaders ∅ [("content-type", ["text/plain"])]
             "application/json; charset=utf-8" in
  Header_Values h "Content-Type" = ["application/json; charset=utf-8"; "text/plain"]
  ∧ Header_Get h "Content-Type" = "application/json; charset=utf-8".
Proof. split; vm_compute; reflexivity. Qed.

(** ** Variables, last write wins *)




(** The witness above, evaluated: the second write to [key] wins. *)
Example Var_last_write_wins_sample :
  let c := client_with false (transport_double 200 (Some not_found_body)) in
  let req := set_all [("key", GString "old"); ("n", GInt 1); ("key", GString "value")]
               (NewGraphqlRequest "query {x}") in
  Body <$> Unified.sent (Unified.Run generic_target url_parses c None req None no_headers)
  = [ JSONBody (JObj [ ("query", JStr "query {x}");
                       ("variables", JObj [("key", JStr "value"); ("n", JNum 1)]) ]) ].
Proof. vm_compute. reflexivity. Qed.

(** * Further properties of the pipeline *)

(** ** One send, no retry *)

(** Both generations hand the same requests to the transport: they differ
    only in what they do with the response. *)
Lemma Run_sent_same {T E : Type} (dT : decoder T) (dE : decoder E)
    (pu : string → option error) (c : Client) (ctx : Context) (req : GraphRequest)
    (target : option T) (errorResp : option E) (ch : choices) :
  Legacy.sent (Legacy.Run dT dE pu c ctx req target errorResp ch)
  = Unified.sent (Unified.Run dT pu c ctx req target ch).
Proof.
  unfold Unified.Run, Legacy.Run.
  destruct ctx; [done|].
  destruct ((0 <? length (files req))%nat && negb (useMultipartForm c)); [done|].
  destruct (useMultipartForm c).
  - unfold Unified.runWithPostFields, Legacy.runWithPostFields, Unified.fail, Legacy.fail,
      Unified.NewRequest, Legacy.NewRequest.
    repeat (case_match; simplify_eq/=); done.
  - unfold Unified.runWithJSON, Legacy.runWithJSON, Unified.fail, Legacy.fail,
      Unified.NewRequest, Legacy.NewRequest.
    repeat (case_match; simplify_eq/=); done.
Qed.

(** [Run] never retries: whatever the inputs and whatever the transport
    answers, at most one request is handed to the transport. *)
Theorem Run_sends_at_most_once :
  ∀ (T E : Type) (dT : decoder T) (dE : decoder E) (pu : string → option error)
    (c : Client) (ctx : Context) (req : GraphRequest)
    (target : option T) (errorResp : option E) (ch : choices),
    (length (Unified.sent (Unified.Run dT pu c ctx req target ch)) ≤ 1)%nat
    ∧ (length (Legacy.sent (Legacy.Run dT dE pu c ctx req target errorResp ch)) ≤ 1)%nat.
Proof.
  intros. rewrite Run_sent_same. split; run_paths; simpl; lia.
Qed.

(** ** Failures of the transport and of the body stream *)

(** An error of the transport's [Do] is returned as it is, without a wrap
    and after that one send; the caller's targets are left alone. *)
Theorem transport_error_verbatim :
  ∀ (T E : Type) (dT : decoder T) (dE : decoder E) (pu : string → option error)
    (c : Client) (req : GraphRequest) (target : option T) (errorResp : option E)
    (ch : choices) (Do : HTTPDoer) (r : http_request) (err : error),
    httpClient c = Some Do →
    Unified.sent (Unified.Run dT pu c None req target ch) = [r] →
    Do r = inr err →
    Unified.returned (Unified.Run dT pu c None req target ch) = Return (None, Some err)
    ∧ Unified.target (Unified.Run dT pu c None req target ch) = target
    ∧ Legacy.returned (Legacy.Run dT dE pu c None req target errorResp ch)
      = Return (Some err)
    ∧ Legacy.target (Legacy.Run dT dE pu c None req target errorResp ch) = target
    ∧ Legacy.error_target (Legacy.Run dT dE pu c None req target errorResp ch)
      = errorResp.
Proof.
  intros * Hdo Hsent Hres.
  pose proof (Run_sent_same dT dE pu c None req target errorResp ch) as Hsame.
  rewrite Hsent in Hsame.
  repeat split; run_paths.
Qed.

Lemma transport_error_verbatim_witness :
  let c := client_with false (failing_transport (Opaque "connection refused")) in
  let req := NewGraphqlRequest "query {x}" in
  Unified.returned (Unified.Run generic_target url_parses c None req (Some JNull) no_headers)
    = Return (None, Some (Opaque "connection refused"))
  ∧ Unified.target (Unified.Run generic_target url_parses c None req (Some JNull) no_headers)
    = Some JNull
  ∧ Legacy.returned
      (Legacy.Run generic_target generic_target url_parses c None req (Some JNull)
         (Some JNull) no_headers)
    = Return (Some (Opaque "connection refused"))
  ∧ Legacy.target
      (Legacy.Run generic_target generic_target url_parses c None req (Some JNull)
         (Some JNull) no_headers)
    = Some JNull
  ∧ Legacy.error_target
      (Legacy.Run generic_target generic_target url_parses c None req (Some JNull)
         (Some JNull) no_headers)
    = Some JNull.
Proof.
  intros c req.
  eapply (transport_error_verbatim json json generic_target generic_target url_parses c req
            (Some JNull) (Some JNull) no_headers
            (failing_transport (Opaque "connection refused"))).
  - reflexivity.
  - reflexivity.
  - reflexivity.
Defined.

(** A failure while the response body is read is returned wrapped as
    "reading body", whatever the status of the response; the caller's
    targets are left alone. *)
Theorem body_read_failure_wrapped :
  ∀ (T E : Type) (dT : decoder T) (dE : decoder E) (pu : string → option error)
    (c : Client) (req : GraphRequest) (target : option T) (errorResp : option E)
    (ch : choices) (Do : HTTPDoer) (r : http_request) (res : http_response)
    (err : error),
    httpClient c = Some Do →
    Unified.sent (Unified.Run dT pu c None req target ch) = [r] →
    Do r = inl res →
    RespBody res = Unreadable err →
    Unified.returned (Unified.Run dT pu c None req target ch)
      = Return (None, Some (Wrap err "reading body"))
    ∧ Unified.target (Unified.Run dT pu c None req target ch) = target
    ∧ Legacy.returned (Legacy.Run dT dE pu c None req target errorResp ch)
      = Return (Some (Wrap err "reading body"))
    ∧ Legacy.target (Legacy.Run dT dE pu c None req target errorResp ch) = target
    ∧ Legacy.error_target (Legacy.Run dT dE pu c None req target errorResp ch)
      = errorResp.
Proof.
  intros * Hdo Hsent Hres Hbody.
  pose proof (Run_sent_same dT dE pu c None req target errorResp ch) as Hsame.
  rewrite Hsent in Hsame.
  repeat split; run_paths.
Qed.

Lemma body_read_failure_wrapped_witness :
  let c := client_with true (unreadable_transport 500 (Opaque "unexpected EOF")) in
  let req := NewGraphqlRequest "query {x}" in
  Unified.returned (Unified.Run generic_target url_parses c None req (Some JNull) no_headers)
    = Return (None, Some (Wrap (Opaque "unexpected EOF") "reading body"))
  ∧ Unified.target (Unified.Run generic_target url_parses c None req (Some JNull) no_headers)
    = Some JNull
  ∧ Legacy.returned
      (Legacy.Run generic_target generic_target url_parses c None req (Some JNull)
         (Some JNull) no_headers)
    = Return (Some (Wrap (Opaque "unexpected EOF") "reading body"))
  ∧ Legacy.target
      (Legacy.Run generic_target generic_target url_parses c None req (Some JNull)
         (Some JNull) no_headers)
    = Some JNull
  ∧ Legacy.error_target
      (Legacy.Run generic_target generic_target url_parses c None req (Some JNull)
         (Some JNull) no_headers)
    = Some JNull.
Proof.
  intros c req.
  eapply (body_read_failure_wrapped json json generic_target generic_target url_parses c req
            (Some JNull) (Some JNull) no_headers
            (unreadable_transport 500 (Opaque "unexpected EOF"))).
  - reflexivity.
  - reflexivity.
  - reflexivity.
  - reflexivity.
Defined.

(** ** Decoding failures *)

(** On status 200, a body that does not decode as the envelope yields the
    decoder's error wrapped as "decoding response", in JSON and in multipart
    mode; no envelope is returned, and the error target of the legacy call
    is left alone.  Each generation decodes with its own error type, and
    each half holds for every body its own decoder rejects. *)
Theorem decode_failure_on_status_ok :
  ∀ (T E : Type) (dT : decoder T) (dE : decoder E) (pu : string → option error)
    (c : Client) (req : GraphRequest) (target : option T) (errorResp : option E)
    (ch : choices) (Do : HTTPDoer) (r : http_request) (res : http_response)
    (buf : body_bytes),
    httpClient c = Some Do →
    Unified.sent (Unified.Run dT pu c None req target ch) = [r] →
    Do r = inl res →
    RespBody res = Readable buf →
    StatusCode res = StatusOK →
    (∀ (g : option Unified.GraphResponse) (err : json_error),
       Unified.Decode dT (text buf)
         {| Unified.Data := Unified.interface_of target; Unified.Errors := [] |}
         = (g, Some err) →
       Unified.returned (Unified.Run dT pu c None req target ch)
       = Return (None, Some (Wrap (JSONError err) "decoding response")))
    ∧ (∀ (g' : option Legacy.graphResponse) (err' : json_error),
         Legacy.Decode dT (text buf)
           {| Legacy.Data := Legacy.interface_of target; Legacy.Errors := [] |}
           = (g', Some err') →
         Legacy.returned (Legacy.Run dT dE pu c None req target errorResp ch)
         = Return (Some (Wrap (JSONError err') "decoding response"))
         ∧ Legacy.error_target (Legacy.Run dT dE pu c None req target errorResp ch)
           = errorResp).
Proof.
  intros * Hdo Hsent Hres Hbody Hcode.
  pose proof (Run_sent_same dT dE pu c None req target errorResp ch) as Hsame.
  rewrite Hsent in Hsame.
  split.
  - intros g err Hdec. run_paths; rewrite ?Hcode in *; simplify_eq/=; done.
  - intros g' err' Hdec'.
    split; run_paths; rewrite ?Hcode in *; simplify_eq/=; done.
Qed.

Lemma decode_failure_on_status_ok_witness :
  let c := client_with false (transport_double 200 (Some (JArr []))) in
  let req := NewGraphqlRequest "query {x}" in
  Unified.returned
    (Unified.Run generic_target url_parses c None req (Some JNull) no_headers)
  = Return (None,
      Some (Wrap (JSONError (UnmarshalTypeError "array" "GraphResponse"))
              "decoding response"))
  ∧ Legacy.returned
      (Legacy.Run generic_target generic_target url_parses c None req (Some JNull)
         (Some JNull) no_headers)
    = Return (Some (Wrap (JSONError (UnmarshalTypeError "array" "graphResponse"))
                      "decoding response"))
  ∧ Legacy.error_target
      (Legacy.Run generic_target generic_target url_parses c None req (Some JNull)
         (Some JNull) no_headers)
    = Some JNull.
Proof.
  intros c req.
  edestruct (decode_failure_on_status_ok json json generic_target generic_target
               url_parses c req (Some JNull) (Some JNull) no_headers
               (transport_double 200 (Some (JArr []))))
    with (res := {| StatusCode := 200;
                    RespBody := Readable {| text := Some (JArr []);
                                            after_decoder := None |} |})
    as [Hunified Hlegacy]; [reflexivity..|].
  split.
  - eapply Hunified. reflexivity.
  - eapply Hlegacy. reflexivity.
Defined.

(** The witness above, evaluated: an array is no envelope.  And a body only
    one generation rejects: a structured message is a mismatch for the
    legacy error type alone. *)
Example decode_failure_on_status_ok_sample :
  let req := NewGraphqlRequest "query {x}" in
  let structured := JObj [("errors", JArr [JObj [("message", JObj [("code", JNum 1)])]])] in
  Unified.returned
    (Unified.Run generic_target url_parses
       (client_with false (transport_double 200 (Some (JArr [])))) None req None no_headers)
  = Return (None,
      Some (Wrap (JSONError (UnmarshalTypeError "array" "GraphResponse"))
              "decoding response"))
  ∧ Legacy.returned
      (Legacy.Run generic_target generic_target url_parses
         (client_with false (transport_double 200 (Some structured))) None req None None
         no_headers)
    = Return (Some (Wrap (JSONError (UnmarshalTypeError "object" "string"))
                      "decoding response"))
  ∧ ∃ env,
      Unified.returned
        (Unified.Run generic_target url_parses
           (client_with false (transport_double 200 (Some structured))) None req None
           no_headers)
      = Return (Some env, None).
Proof. repeat split; try (vm_compute; reflexivity). eexists. vm_compute. reflexivity. Qed.

(** In multipart mode of the unified client, a non-200 response whose body
    does not decode as the envelope yields the status error. *)
Theorem unified_multipart_undecodable_non200 :
  ∀ (T : Type) (dT : decoder T) (pu : string → option error)
    (c : Client) (req : GraphRequest) (target : option T)
    (ch : choices) (Do : HTTPDoer) (r : http_request) (res : http_response)
    (buf : body_bytes) (g : option Unified.GraphResponse) (err : json_error),
    useMultipartForm c = true →
    httpClient c = Some Do →
    Unified.sent (Unified.Run dT pu c None req target ch) = [r] →
    Do r = inl res →
    RespBody res = Readable buf →
    StatusCode res ≠ StatusOK →
    Unified.Decode dT (text buf)
      {| Unified.Data := Unified.interface_of target; Unified.Errors := [] |}
      = (g, Some err) →
    Unified.returned (Unified.Run dT pu c None req target ch)
      = Return (None, Some (StatusNotOK (StatusCode res))).
Proof.
  intros * Hmode Hdo Hsent Hres Hbody Hcode Hdec.
  assert ((StatusCode res =? StatusOK)%Z = false) as Hneq by (by apply Z.eqb_neq).
  run_paths; rewrite ?Hneq in *; simplify_eq/=; done.
Qed.

Lemma unified_multipart_undecodable_non200_witness :
  let c := client_with true (transport_double 500 None) in
  let req := NewGraphqlRequest "query {x}" in
  Unified.returned (Unified.Run generic_target url_parses c None req (Some JNull) no_headers)
    = Return (None, Some (StatusNotOK 500)).
Proof.
  intros c req.
  eapply (unified_multipart_undecodable_non200 json generic_target url_parses c req
            (Some JNull) no_headers (transport_double 500 None))
    with (res := {| StatusCode := 500;
                    RespBody := Readable {| text := None; after_decoder := None |} |}).
  - reflexivity.
  - reflexivity.
  - reflexivity.
  - reflexivity.
  - reflexivity.
  - discriminate.
  - reflexivity.
Defined.

Lemma runWithJSON_status_first_witness :
  let c := client_with false (transport_double 500 (Some not_found_body)) in
  let req := NewGraphqlRequest "query {x}" in
  Unified.returned (Unified.Run generic_target url_parses c None req (Some JNull) no_headers)
    = Return (None, Some (StatusNotOK 500))
  ∧ Legacy.returned
      (Legacy.Run generic_target generic_target url_parses c None req (Some JNull)
         (Some JNull) no_headers)
    = Return (Some (StatusNotOK 500)).
Proof.
  intros c req.
  eapply (runWithJSON_status_first json json generic_target generic_target url_parses c req
            (Some JNull) (Some JNull) no_headers
            (transport_double 500 (Some not_found_body)))
    with (res := {| StatusCode := 500;
                    RespBody := Readable {| text := Some not_found_body;
                                            after_decoder := None |} |}).
  - reflexivity.
  - reflexivity.
  - reflexivity.
  - reflexivity.
  - reflexivity.
  - discriminate.
Defined.

Lemma legacy_runWithJSON_unmarshal_discarded_witness :
  let c := client_with false (transport_double 500 (Some (JObj []))) in
  let req := NewGraphqlRequest "query {x}" in
  Legacy.returned
    (Legacy.Run generic_target dec_string url_parses c None req None (Some "") no_headers)
    = Return (Some (StatusNotOK 500))
  ∧ Legacy.error_target
      (Legacy.Run generic_target dec_string url_parses c None req None (Some "") no_headers)
    = (Legacy.Unmarshal dec_string (Some (JObj [])) (Some "")).1.
Proof.
  intros c req.
  eapply (legacy_runWithJSON_unmarshal_discarded json string generic_target dec_string
            url_parses c req None (Some "") no_headers
            (transport_double 500 (Some (JObj []))))
    with (res := {| StatusCode := 500;
                    RespBody := Readable {| text := Some (JObj []);
                                            after_decoder := None |} |})
         (buf := {| text := Some (JObj []); after_decoder := None |}).
  - reflexivity.
  - reflexivity.
  - reflexivity.
  - reflexivity.
  - reflexivity.
  - discriminate.
Defined.

Lemma legacy_runWithPostFields_unmarshal_discarded_witness :
  let c := client_with true (transport_double 500 (Some (JStr "oops"))) in
  let req := NewGraphqlRequest "query {x}" in
  Legacy.returned
    (Legacy.Run generic_target dec_string url_parses c None req None (Some "") no_headers)
    = Return (Some (StatusNotOK 500))
  ∧ Legacy.error_target
      (Legacy.Run generic_target dec_string url_parses c None req None (Some "") no_headers)
    = (Legacy.Unmarshal dec_string None (Some "")).1.
Proof.
  intros c req.
  eapply (legacy_runWithPostFields_unmarshal_discarded json string generic_target dec_string
            url_parses c req None (Some "") no_headers
            (transport_double 500 (Some (JStr "oops"))))
    with (res := {| StatusCode := 500;
                    RespBody := Readable {| text := Some (JStr "oops");
                                            after_decoder := None |} |})
         (buf := {| text := Some (JStr "oops"); after_decoder := None |}).
  - reflexivity.
  - reflexivity.
  - reflexivity.
  - reflexivity.
  - reflexivity.
  - discriminate.
  - reflexivity.
Defined.

(** ** Failures before the send *)

Lemma marshal_vars_None_len (req : GraphRequest) :
  marshal_vars (vars req) = None → (0 <? len_vars req)%nat = true.
Proof.
  unfold marshal_vars, len_vars. destruct (vars req) as [m|]; [|done].
  intros Hm. apply Nat.ltb_lt.
  destruct (decide (size m = 0%nat)) as [Hz|Hz]; [|lia].
  apply map_size_empty_iff in Hz. subst m.
  rewrite map_to_list_empty in Hm. done.
Qed.

Lemma copy_files_failure (pre post : list File) (f : File) (e : error) :
  (∀ f', f' ∈ pre → failure (R f') = None) →
  failure (R f) = Some e →
  copy_files (pre ++ f :: post) = inr (Wrap e "preparing file").
Proof.
  intros Hpre Hf. induction pre as [|f' pre IH]; simpl.
  - by rewrite Hf.
  - rewrite (Hpre f') by (by left). rewrite IH; [done|].
    intros f'' Hin. apply Hpre. by right.
Qed.

(** A URL that [http.NewRequest] cannot parse: its error is returned as it
    is and nothing is handed to the transport.  (The body is encoded before
    the request is made, so this needs the body to encode.) *)
Theorem unparsable_url_no_send :
  ∀ (T E : Type) (dT : decoder T) (dE : decoder E) (pu : string → option error)
    (c : Client) (req : GraphRequest) (target : option T) (errorResp : option E)
    (ch : choices) (v : json) (err : error),
    (useMultipartForm c = false → files req = []) →
    marshal_vars (vars req) = Some v →
    (∀ f, f ∈ files req → failure (R f) = None) →
    pu (url c) = Some err →
    Unified.returned (Unified.Run dT pu c None req target ch) = Return (None, Some err)
    ∧ Unified.sent (Unified.Run dT pu c None req target ch) = []
    ∧ Legacy.returned (Legacy.Run dT dE pu c None req target errorResp ch)
      = Return (Some err)
    ∧ Legacy.sent (Legacy.Run dT dE pu c None req target errorResp ch) = [].
Proof.
  intros * Hfiles Hv Hread Hurl. rewrite Run_sent_same.
  unfold Unified.Run, Legacy.Run.
  destruct (useMultipartForm c) eqn:Hmode.
  - rewrite andb_false_r.
    unfold Unified.runWithPostFields, Legacy.runWithPostFields, multipart_parts.
    rewrite Hv, (copy_files_readable _ Hread), Hurl.
    by destruct (0 <? len_vars req)%nat.
  - rewrite (Hfiles eq_refl). simpl.
    unfold Unified.runWithJSON, Legacy.runWithJSON, json_body. by rewrite Hv, Hurl.
Qed.

Lemma unparsable_url_no_send_witness :
  let c := client_with false (transport_double 200 None) in
  let req := NewGraphqlRequest "query {x}" in
  let pu := url_rejected (Opaque "missing protocol scheme") in
  Unified.returned (Unified.Run generic_target pu c None req None no_headers)
    = Return (None, Some (Opaque "missing protocol scheme"))
  ∧ Unified.sent (Unified.Run generic_target pu c None req None no_headers) = []
  ∧ Legacy.returned
      (Legacy.Run generic_target generic_target pu c None req None None no_headers)
    = Return (Some (Opaque "missing protocol scheme"))
  ∧ Legacy.sent
      (Legacy.Run generic_target generic_target pu c None req None None no_headers)
    = [].
Proof.
  intros c req pu.
  eapply (unparsable_url_no_send json json generic_target generic_target pu c req
            None None no_headers).
  - reflexivity.
  - reflexivity.
  - intros f Hf. apply elem_of_nil in Hf. destruct Hf.
  - reflexivity.
Defined.

(** A variable whose value cannot be encoded: [Run] returns the encoder's
    error, wrapped as "encode body" in JSON mode and as "encode variables"
    in multipart mode, and nothing is handed to the transport. *)
Theorem unencodable_variables_no_send :
  ∀ (T E : Type) (dT : decoder T) (dE : decoder E) (pu : string → option error)
    (c : Client) (req : GraphRequest) (target : option T) (errorResp : option E)
    (ch : choices),
    (useMultipartForm c = false → files req = []) →
    marshal_vars (vars req) = None →
    let err := Wrap (JSONError UnsupportedTypeError)
                 (if useMultipartForm c then "encode variables" else "encode body") in
    Unified.returned (Unified.Run dT pu c None req target ch) = Return (None, Some err)
    ∧ Unified.sent (Unified.Run dT pu c None req target ch) = []
    ∧ Legacy.returned (Legacy.Run dT dE pu c None req target errorResp ch)
      = Return (Some err)
    ∧ Legacy.sent (Legacy.Run dT dE pu c None req target errorResp ch) = [].
Proof.
  intros * Hfiles Hv err. subst err. rewrite Run_sent_same.
  unfold Unified.Run, Legacy.Run.
  destruct (useMultipartForm c) eqn:Hmode.
  - rewrite andb_false_r.
    unfold Unified.runWithPostFields, Legacy.runWithPostFields, multipart_parts.
    by rewrite (marshal_vars_None_len _ Hv), Hv.
  - rewrite (Hfiles eq_refl). simpl.
    unfold Unified.runWithJSON, Legacy.runWithJSON, json_body. by rewrite Hv.
Qed.

Lemma unencodable_variables_no_send_witness :
  let c := client_with true (transport_double 200 None) in
  let req := Var "ch" GChan (NewGraphqlRequest "query {x}") in
  let err := Wrap (JSONError UnsupportedTypeError)
               (if useMultipartForm c then "encode variables" else "encode body") in
  Unified.returned (Unified.Run generic_target url_parses c None req None no_headers)
    = Return (None, Some err)
  ∧ Unified.sent (Unified.Run generic_target url_parses c None req None no_headers) = []
  ∧ Legacy.returned
      (Legacy.Run generic_target generic_target url_parses c None req None None no_headers)
    = Return (Some err)
  ∧ Legacy.sent
      (Legacy.Run generic_target generic_target url_parses c None req None None no_headers)
    = [].
Proof.
  intros c req.
  apply (unencodable_variables_no_send json json generic_target generic_target url_parses
           c req None None no_headers).
  - discriminate.
  - vm_compute. reflexivity.
Defined.

(** In multipart mode, a file whose reader fails: [Run] returns the failure
    of the first such file, wrapped as "preparing file", and nothing is
    handed to the transport. *)
Theorem failing_reader_no_send :
  ∀ (T E : Type) (dT : decoder T) (dE : decoder E) (pu : string → option error)
    (c : Client) (req : GraphRequest) (target : option T) (errorResp : option E)
    (ch : choices) (v : json) (pre post : list File) (f : File) (e : error),
    useMultipartForm c = true →
    marshal_vars (vars req) = Some v →
    files req = (pre ++ f :: post)%list →
    (∀ f', f' ∈ pre → failure (R f') = None) →
    failure (R f) = Some e →
    Unified.returned (Unified.Run dT pu c None req target ch)
      = Return (None, Some (Wrap e "preparing file"))
    ∧ Unified.sent (Unified.Run dT pu c None req target ch) = []
    ∧ Legacy.returned (Legacy.Run dT dE pu c None req target errorResp ch)
      = Return (Some (Wrap e "preparing file"))
    ∧ Legacy.sent (Legacy.Run dT dE pu c None req target errorResp ch) = [].
Proof.
  intros * Hmode Hv Hfs Hpre Hf. rewrite Run_sent_same.
  unfold Unified.Run, Legacy.Run. rewrite Hmode, andb_false_r.
  unfold Unified.runWithPostFields, Legacy.runWithPostFields, multipart_parts.
  rewrite Hv, Hfs, (copy_files_failure _ _ _ _ Hpre Hf).
  by destruct (0 <? len_vars req)%nat.
Qed.

Lemma failing_reader_no_send_witness :
  let c := client_with true (transport_double 200 None) in
  let broken := {| content := [x68]; failure := Some (Opaque "disk error") |} in
  let req := AttachFile "second" "b.txt" broken
               (AttachFile "file" "a.txt" (R sample_file) (NewGraphqlRequest "query {x}")) in
  Unified.returned (Unified.Run generic_target url_parses c None req None no_headers)
    = Return (None, Some (Wrap (Opaque "disk error") "preparing file"))
  ∧ Unified.sent (Unified.Run generic_target url_parses c None req None no_headers) = []
  ∧ Legacy.returned
      (Legacy.Run generic_target generic_target url_parses c None req None None no_headers)
    = Return (Some (Wrap (Opaque "disk error") "preparing file"))
  ∧ Legacy.sent
      (Legacy.Run generic_target generic_target url_parses c None req None None no_headers)
    = [].
Proof.
  intros c broken req.
  eapply (failing_reader_no_send json json generic_target generic_target url_parses
            c req None None no_headers JNull [sample_file]
            [] {| Field := "second"; Name := "b.txt"; R := broken |}).
  - reflexivity.
  - reflexivity.
  - reflexivity.
  - intros f' Hf'. apply list_elem_of_singleton in Hf'. subst f'. reflexivity.
  - reflexivity.
Defined.

(** ** The body [null] *)

(** A response whose body is the JSON text [null] (with status 200 in JSON
    mode, with any status in multipart mode) sets the envelope pointer to
    nil: the unified [Run] returns a nil envelope with a nil error, and the
    legacy [Run] panics when it reads the error list through that pointer. *)
Theorem null_body :
  ∀ (T E : Type) (dT : decoder T) (dE : decoder E) (pu : string → option error)
    (c : Client) (req : GraphRequest) (target : option T) (errorResp : option E)
    (ch : choices) (Do : HTTPDoer) (r : http_request) (res : http_response)
    (buf : body_bytes),
    httpClient c = Some Do →
    Unified.sent (Unified.Run dT pu c None req target ch) = [r] →
    Do r = inl res →
    RespBody res = Readable buf →
    text buf = Some JNull →
    (useMultipartForm c = false → StatusCode res = StatusOK) →
    Unified.returned (Unified.Run dT pu c None req target ch) = Return (None, None)
    ∧ Legacy.returned (Legacy.Run dT dE pu c None req target errorResp ch) = Panic.
Proof.
  intros * Hdo Hsent Hres Hbody Htext Hcode.
  pose proof (Run_sent_same dT dE pu c None req target errorResp ch) as Hsame.
  rewrite Hsent in Hsame.
  destruct buf as [t rest]. simpl in Htext. subst t.
  split; run_paths;
    repeat match goal with
           | H : ?x = false → _ , H' : ?x = false |- _ => specialize (H H')
           | H : false = false → _ |- _ => specialize (H eq_refl)
           | H : StatusCode ?res = StatusOK, H' : context [Z.eqb (StatusCode ?res) _] |- _ =>
               rewrite H in H'
           end; simplify_eq/=; done.
Qed.

Lemma null_body_witness :
  let c := client_with false (transport_double 200 (Some JNull)) in
  let req := NewGraphqlRequest "query {x}" in
  Unified.returned (Unified.Run generic_target url_parses c None req (Some JNull) no_headers)
    = Return (None, None)
  ∧ Legacy.returned
      (Legacy.Run generic_target generic_target url_parses c None req (Some JNull)
         (Some JNull) no_headers)
    = Panic.
Proof.
  intros c req.
  eapply (null_body json json generic_target generic_target url_parses c req
            (Some JNull) (Some JNull) no_headers (transport_double 200 (Some JNull))).
  - reflexivity.
  - reflexivity.
  - reflexivity.
  - reflexivity.
  - reflexivity.
  - reflexivity.
Defined.

(** ** Clients and requests as they are built *)

Lemma options_fold (opts : list package_option) : ∀ c0 c,
  c = foldl (λ c opt, opt c) c0 (option_of <$> opts) →
  url c = url c0
  ∧ useMultipartForm c = useMultipartForm c0 || existsb is_multipart_option opts
  ∧ closeReq c = closeReq c0 || existsb is_close_option opts
  ∧ httpClient c = match last_transport opts with
                   | Some d => Some d
                   | None => httpClient c0
                   end.
Proof.
  induction opts as [|o opts IH]; intros c0 c ->.
  - simpl. by rewrite !orb_false_r.
  - destruct (IH (option_of o c0) _ eq_refl) as (Hu & Hm & Hc & Hd).
    rewrite fmap_cons. simpl foldl. rewrite Hu, Hm, Hc, Hd.
    destruct o, (last_transport opts) eqn:Hl; simpl; rewrite ?Hl;
      rewrite ?orb_true_r, ?orb_true_l, ?orb_false_r; done.
Qed.

(** [NewClient] with options of the package: the URL is the one given; the
    client is in multipart mode exactly when [UseMultipartForm] is among the
    options, and closes request bodies exactly when
    [ImmediatelyCloseReqBody] is; its transport is that of the last
    [WithHTTPClient], or the default client when there is none. *)
Theorem NewClient_package_options :
  ∀ (D : HTTPDoer) (u : string) (opts : list package_option),
    let c := NewClient D u (option_of <$> opts) in
    url c = u
    ∧ useMultipartForm c = existsb is_multipart_option opts
    ∧ closeReq c = existsb is_close_option opts
    ∧ httpClient c = Some (default D (last_transport opts)).
Proof.
  intros D u opts. unfold NewClient.
  destruct (options_fold opts
              {| url := u; httpClient := None; useMultipartForm := false;
                 closeReq := false |} _ eq_refl) as (Hu & Hm & Hc & Hd).
  simpl in *. rewrite Hd. destruct (last_transport opts); simpl; by rewrite ?Hu, ?Hm, ?Hc.
Qed.

Lemma set_all_vars_congr (l : list (string * govalue)) : ∀ r1 r2,
  vars r1 = vars r2 → vars (set_all l r1) = vars (set_all l r2).
Proof.
  unfold set_all. induction l as [|[k v] l IH]; intros r1 r2 Hv; simpl; [done|].
  apply IH. unfold Var. simpl. by rewrite Hv.
Qed.

Lemma apply_calls_fields (calls : list request_call) : ∀ req0,
  apply_calls calls req0
  = {| query := query req0;
       vars := vars (set_all (var_calls calls) req0);
       files := (files req0 ++ file_calls calls)%list;
       Header := Header req0 |}.
Proof.
  unfold apply_calls.
  induction calls as [|[k v|f n r] calls IH]; intros req0; simpl.
  - rewrite app_nil_r. by destruct req0.
  - rewrite IH. reflexivity.
  - rewrite IH. simpl. rewrite <- app_assoc. simpl.
    by rewrite (set_all_vars_congr _ (AttachFile f n r req0) req0).
Qed.

Lemma last_write_nonempty (l : list (string * govalue)) :
  l ≠ [] → ∃ k v, last_write k l = Some v.
Proof.
  destruct l as [|[k v] l]; [done|]. intros _. exists k. simpl.
  destruct (last_write k l); [by eexists|]. rewrite String.eqb_refl. by eexists.
Qed.

(** A request made by [NewGraphqlRequest] and changed by any sequence of
    [Var] and [File] calls: the query is the one given and the header map is
    empty; the files are those of the [File] calls, in call order; the
    variables map is nil when [Var] was never called and otherwise a
    non-empty map holding under each key the value of the last [Var] call
    for it.  So the map is never allocated and empty. *)
Theorem request_after_calls :
  ∀ (q : string) (calls : list request_call),
    let req := apply_calls calls (NewGraphqlRequest q) in
    Query req = q
    ∧ Header req = ∅
    ∧ Files req = file_calls calls
    ∧ (var_calls calls = [] → Vars req = None)
    ∧ (var_calls calls ≠ [] →
       ∃ m, Vars req = Some m ∧ m ≠ ∅
            ∧ ∀ k, m !! k = last_write k (var_calls calls)).
Proof.
  intros q calls req. subst req. rewrite apply_calls_fields.
  unfold Query, Files, Vars. simpl.
  split; [done|]. split; [done|]. split; [done|]. split.
  - by intros ->.
  - intros Hcalls.
    pose proof (vars_map_set_all (var_calls calls)) as Hlook.
    destruct (var_calls calls) as [|[k v] l] eqn:Hl; [done|].
    change (set_all ((k, v) :: l) ?r) with (set_all l (Var k v r)).
    destruct (vars_set_all_allocated l (Var k v (NewGraphqlRequest q))) as [m Hm];
      [by eexists|].
    exists m. split; [done|].
    assert (∀ k', m !! k' = last_write k' ((k, v) :: l)) as Hm'.
    { intros k'. specialize (Hlook k' (NewGraphqlRequest q)).
      change (set_all ((k, v) :: l) ?r) with (set_all l (Var k v r)) in Hlook.
      unfold vars_map at 1 in Hlook. rewrite Hm in Hlook. rewrite Hlook.
      by destruct (last_write k' ((k, v) :: l)). }
    split; [|done].
    destruct (last_write_nonempty ((k, v) :: l)) as (k' & v' & Hk'); [done|].
    intros ->. specialize (Hm' k'). rewrite Hk', lookup_empty in Hm'. done.
Qed.

(** ** What the error model takes *)

Lemma dec_elems_strings (items : list json) : ∀ old,
  (dec_elems dec_string "" items old).2 = None ↔ forallb string_or_null items = true.
Proof.
  induction items as [|j items IH]; intros old; simpl; [done|].
  destruct (dec_string j (match old with [] => "" | a :: _ => a end)) as [a e1] eqn:Hj.
  destruct (dec_elems dec_string "" items (tail old)) as [l e2] eqn:Hl.
  specialize (IH (tail old)). rewrite Hl in IH. simpl in *.
  rewrite andb_true_iff, <- IH.
  destruct j; simpl in Hj; simplify_eq; simpl; intuition congruence.
Qed.

(** The [path] of a GraphQL error is declared as a list of strings: it
    decodes without a mismatch exactly when every segment is a JSON string
    or [null].  A numeric segment (a list index) makes the decoding of the
    error, and of the envelope that holds it, fail. *)
Theorem GraphErr_path_segments :
  ∀ (items : list json) (old : GraphErr),
    ((dec_GraphErr (JObj [("path", JArr items)]) old).2 = None
     ↔ forallb string_or_null items = true)
    ∧ ((Unified.Decode generic_target
          (Some (JObj [("errors", JArr [JObj [("path", JArr items)]])]))
          {| Unified.Data := Unified.DataNil; Unified.Errors := [] |}).2 = None
       ↔ forallb string_or_null items = true).
Proof.
  intros items old. split.
  - rewrite <- (dec_elems_strings items (Path old)).
    unfold dec_GraphErr, dec_struct. simpl. unfold dec_member. simpl.
    unfold at_field, dec_slice.
    by destruct (dec_elems dec_string "" items (Path old)) as [l [e|]].
  - rewrite <- (dec_elems_strings items []).
    unfold Unified.Decode, dec_struct. simpl. unfold dec_member. simpl.
    unfold at_field, dec_slice. simpl.
    unfold dec_GraphErr, dec_struct. simpl. unfold dec_member. simpl.
    unfold at_field, dec_slice. simpl.
    by destruct (dec_elems dec_string "" items []) as [l [e|]].
Qed.

(** The error types that declare [Message string] take a [message] member
    exactly when it is a JSON string or [null]; [null] leaves the message
    empty. *)
Theorem string_Message_accepts_exactly :
  ∀ (m : json),
    ((StringMessage.dec_GraphErr (JObj [("message", m)]) StringMessage.zero_GraphErr).2
       = None ↔ string_or_null m = true)
    ∧ ((LegacyErr.dec_graphErr (JObj [("message", m)]) LegacyErr.zero_graphErr).2
         = None ↔ string_or_null m = true).
Proof. intros m. split; destruct m; simpl; split; done. Qed.

(** ** Members of the envelope *)

Lemma envelope_field_of_key {T : Type} (dT : decoder T) (k : string) :
  find_field (Unified.GraphResponse_fields dT) k
  = if decide (foldName k = "DATA")
    then find_field (Unified.GraphResponse_fields dT) "Data"
    else if decide (foldName k = "ERRORS")
         then find_field (Unified.GraphResponse_fields dT) "Errors"
         else None.
Proof.
  unfold find_field, Unified.GraphResponse_fields. simpl.
  repeat (case_decide; simplify_eq/=); try done.
Qed.

(** Once the interface no longer holds the caller's pointer, no later
    member brings it back. *)
Lemma pointer_not_restored {T : Type} (dT : decoder T) (ms : list (string * json)) :
  ∀ (g : Unified.GraphResponse) (e : option json_error),
    (∀ t, Unified.Data g ≠ Unified.DataPtr t) →
    ∀ t', Unified.Data (foldl (dec_member (Unified.GraphResponse_fields dT)) (g, e) ms).1
          ≠ Unified.DataPtr t'.
Proof.
  induction ms as [|[k j] ms IH]; intros g e Hg t'; simpl; [apply Hg|].
  unfold dec_member at 2. simpl fst. rewrite envelope_field_of_key.
  destruct (decide (foldName k = "DATA")) as [Hk|Hk];
    [|destruct (decide (foldName k = "ERRORS")) as [Hk'|Hk']].
  - simpl. unfold at_field. simpl.
    destruct (Unified.dec_Data dT j (Unified.Data g)) as [d e'] eqn:Hd. simpl.
    apply IH. intros t Ht. simpl in Ht. subst d.
    unfold Unified.dec_Data in Hd.
    destruct j, (Unified.Data g) eqn:Hdata; simplify_eq/=;
      repeat (case_match; simplify_eq/=); by eapply Hg.
  - simpl. unfold at_field. simpl.
    destruct (dec_slice dec_GraphErr zero_GraphErr "[]GraphErr" j (Unified.Errors g))
      as [l e'] eqn:Hd. simpl.
    apply IH. intros t Ht. simpl in Ht. by eapply Hg.
  - by apply IH.
Qed.

(** What [written] says the caller's pointer points to is what the decoded
    envelope holds behind that pointer, whenever it still holds it. *)
Lemma written_agrees_with_Decode {T : Type} (dT : decoder T) (ms : list (string * json)) :
  ∀ (g : Unified.GraphResponse) (e : option json_error) (t t' : T),
    Unified.Data g = Unified.DataPtr t →
    Unified.Data (foldl (dec_member (Unified.GraphResponse_fields dT)) (g, e) ms).1
    = Unified.DataPtr t' →
    t' = Unified.written dT ms t.
Proof.
  induction ms as [|[k j] ms IH]; intros g e t t' Hg Ht'; simpl in Ht' |- *.
  - congruence.
  - change (foldName "Data") with "DATA".
    revert Ht'. unfold dec_member at 2. simpl fst. rewrite envelope_field_of_key.
    destruct (decide (foldName k = "DATA")) as [Hk|Hk];
      [|destruct (decide (foldName k = "ERRORS")) as [Hk'|Hk']].
    + rewrite bool_decide_eq_true_2 by done.
      simpl. unfold at_field. simpl. rewrite Hg.
      destruct j; simpl;
        try (destruct (dT _ t) as [t1 e1] eqn:Hd; simpl; intros Ht';
             by eapply IH; [|exact Ht']).
      intros Ht'. exfalso. eapply (pointer_not_restored dT ms); [|exact Ht'].
      intros t0. simpl. done.
    + rewrite bool_decide_eq_false_2 by done.
      simpl. unfold at_field. simpl.
      destruct (dec_slice dec_GraphErr zero_GraphErr "[]GraphErr" j (Unified.Errors g))
        as [l e'] eqn:Hd. simpl.
      intros Ht'. by eapply IH; [|exact Ht'].
    + rewrite bool_decide_eq_false_2 by done. intros Ht'. by eapply IH; [|exact Ht'].
Qed.

(** A member of the response object whose key is neither [data] nor
    [errors], in any spelling of upper and lower case, is skipped: the
    envelope decodes as if the member were not there, wherever it stands. *)
Theorem envelope_unknown_member_skipped :
  ∀ (T : Type) (dT : decoder T) (before after : list (string * json))
    (k : string) (j : json) (gr : Unified.GraphResponse),
    foldName k ≠ "DATA" →
    foldName k ≠ "ERRORS" →
    dec_struct (Unified.GraphResponse_fields dT) "GraphResponse"
      (JObj (before ++ (k, j) :: after)) gr
    = dec_struct (Unified.GraphResponse_fields dT) "GraphResponse"
        (JObj (before ++ after)) gr.
Proof.
  intros * Hdata Herrors. unfold dec_struct.
  rewrite !foldl_app. simpl foldl. f_equal.
  generalize (foldl (dec_member (Unified.GraphResponse_fields dT)) (gr, None) before).
  intros acc. unfold dec_member. simpl fst.
  rewrite envelope_field_of_key. by rewrite !decide_False.
Qed.

Lemma envelope_unknown_member_skipped_witness :
  dec_struct (Unified.GraphResponse_fields generic_target) "GraphResponse"
    (JObj ([("data", JNum 1)] ++ ("extensions", JObj []) :: [("errors", JArr [])]))
    {| Unified.Data := Unified.DataNil; Unified.Errors := [] |}
  = dec_struct (Unified.GraphResponse_fields generic_target) "GraphResponse"
      (JObj ([("data", JNum 1)] ++ [("errors", JArr [])]))
      {| Unified.Data := Unified.DataNil; Unified.Errors := [] |}.
Proof.
  apply (envelope_unknown_member_skipped json generic_target [("data", JNum 1)]
           [("errors", JArr [])] "extensions" (JObj [])).
  - vm_compute. discriminate.
  - vm_compute. discriminate.
Defined.

(** The keys of the envelope are matched without regard to case: a member
    whose key reads [errors] in any spelling is decoded as the error list,
    one whose key reads [data] as the data. *)
Theorem envelope_keys_ignore_case :
  ∀ (T : Type) (dT : decoder T) (k : string) (j : json)
    (acc : Unified.GraphResponse * option json_error),
    (foldName k = "ERRORS" →
     dec_member (Unified.GraphResponse_fields dT) acc (k, j)
     = dec_member (Unified.GraphResponse_fields dT) acc ("Errors", j))
    ∧ (foldName k = "DATA" →
       dec_member (Unified.GraphResponse_fields dT) acc (k, j)
       = dec_member (Unified.GraphResponse_fields dT) acc ("Data", j)).
Proof.
  intros. split; intros Hk; unfold dec_member; simpl fst; simpl snd;
    rewrite (envelope_field_of_key dT k), Hk; reflexivity.
Qed.

(** ** Data and the caller's target *)

(** On status 200 in JSON mode, for a body [{"data": d, "errors": []}] with
    [d] other than [null] and a target the caller points to: the decoder
    writes [d] into the target.  When that succeeds the unified [Run]
    returns the envelope, whose data is the caller's pointer, and a nil
    error; when the target does not take [d], [Run] returns the mismatch
    wrapped as "decoding response", and the target keeps what was written
    into it. *)
Theorem unified_data_written_to_target :
  ∀ (T : Type) (dT : decoder T) (pu : string → option error)
    (c : Client) (req : GraphRequest) (t t' : T) (e : option json_error)
    (ch : choices) (Do : HTTPDoer) (r : http_request) (res : http_response)
    (buf : body_bytes) (d : json),
    useMultipartForm c = false →
    httpClient c = Some Do →
    Unified.sent (Unified.Run dT pu c None req (Some t) ch) = [r] →
    Do r = inl res →
    RespBody res = Readable buf →
    StatusCode res = StatusOK →
    text buf = Some (JObj [("data", d); ("errors", JArr [])]) →
    d ≠ JNull →
    dT d t = (t', e) →
    Unified.target (Unified.Run dT pu c None req (Some t) ch) = Some t'
    ∧ Unified.returned (Unified.Run dT pu c None req (Some t) ch)
      = match e with
        | None =>
            Return (Some {| Unified.Data := Unified.DataPtr t'; Unified.Errors := [] |},
                    None)
        | Some err => Return (None, Some (Wrap (JSONError err) "decoding response"))
        end.
Proof.
  intros * Hmode Hdo Hsent Hres Hbody Hcode Htext Hd Hdec.
  destruct buf as [tx rest]. simpl in Htext. subst tx.
  assert (Unified.Decode dT (Some (JObj [("data", d); ("errors", JArr [])]))
            {| Unified.Data := Unified.DataPtr t; Unified.Errors := [] |}
          = (Some {| Unified.Data := Unified.DataPtr t'; Unified.Errors := [] |}, e))
    as Hdecode.
  { unfold Unified.Decode, dec_struct. simpl. unfold dec_member. simpl.
    unfold at_field, Unified.dec_Data. simpl.
    destruct d; try done; rewrite Hdec; simpl; by destruct e. }
  unfold Unified.Run, Unified.runWithJSON in *. rewrite Hmode in *.
  destruct ((0 <? length (files req))%nat && negb false); [done|].
  destruct (json_body req) as [j|]; [|done].
  destruct (pu (url c)); [done|]. rewrite Hdo in *.
  set (r0 := Unified.NewRequest c _ _) in *.
  assert (r0 = r) as ->.
  { revert Hsent. unfold Unified.fail. repeat case_match; simpl; congruence. }
  rewrite Hres, Hbody, Hcode. rewrite Z.eqb_refl. cbn [negb text Unified.interface_of].
  rewrite Hdecode.
  assert (Unified.target_after dT (Some t) (Some (JObj [("data", d); ("errors", JArr [])]))
          = Some t') as Htarget.
  { simpl. destruct d; try done; by rewrite Hdec. }
  destruct e; cbn [Unified.target Unified.returned]; by rewrite Htarget.
Qed.

Lemma unified_data_written_to_target_witness :
  let body := JObj [("data", JObj [("x", JNum 1)]); ("errors", JArr [])] in
  let c := client_with false (transport_double 200 (Some body)) in
  let req := NewGraphqlRequest "query {x}" in
  Unified.target (Unified.Run generic_target url_parses c None req (Some JNull) no_headers)
    = Some (JObj [("x", JNum 1)])
  ∧ Unified.returned
      (Unified.Run generic_target url_parses c None req (Some JNull) no_headers)
    = match (None : option json_error) with
      | None =>
          Return (Some {| Unified.Data := Unified.DataPtr (JObj [("x", JNum 1)]);
                          Unified.Errors := [] |},
                  None)
      | Some err => Return (None, Some (Wrap (JSONError err) "decoding response"))
      end.
Proof.
  intros body c req.
  eapply (unified_data_written_to_target json generic_target url_parses c req JNull
            (JObj [("x", JNum 1)]) None no_headers (transport_double 200 (Some body)))
    with (buf := {| text := Some body; after_decoder := None |}).
  - reflexivity.
  - reflexivity.
  - reflexivity.
  - reflexivity.
  - reflexivity.
  - reflexivity.
  - reflexivity.
  - discriminate.
  - reflexivity.
Defined.

(** ** The outgoing request, in full *)

Lemma index_add_entries_values (order : list (string * list string)) :
  ∀ (h : http_Header) (K : string),
    index (add_entries order h) K = (index h K ++ values_under K order)%list.
Proof.
  unfold add_entries, values_under.
  induction order as [|[k vs] order IH]; intros h K; simpl.
  - by rewrite app_nil_r.
  - rewrite IH, index_add_values, filter_cons. simpl.
    case_decide as HK; case_decide as HK'; simplify_eq; simpl; try done.
    by rewrite app_assoc.
Qed.

(** Every request handed to the transport is a POST to the client's URL,
    and closes its body after the exchange exactly when the client was made
    with [ImmediatelyCloseReqBody]. *)
Theorem sent_request_line :
  ∀ (T E : Type) (dT : decoder T) (dE : decoder E) (pu : string → option error)
    (c : Client) (ctx : Context) (req : GraphRequest)
    (target : option T) (errorResp : option E) (ch : choices) (r : http_request),
    r ∈ Unified.sent (Unified.Run dT pu c ctx req target ch)
    ∨ r ∈ Legacy.sent (Legacy.Run dT dE pu c ctx req target errorResp ch) →
    Method r = "POST" ∧ URL r = url c ∧ Close r = closeReq c.
Proof.
  intros * Hr.
  assert (request_shape c req ch r) as (Hm & Hu & Hc & _).
  { destruct Hr as [Hr|Hr]; [by eapply Unified_sent_shape|by eapply Legacy_sent_shape]. }
  done.
Qed.

Lemma sent_request_line_witness :
  let c := ImmediatelyCloseReqBody (client_with false (transport_double 200 None)) in
  let r := {| Method := "POST"; URL := "https://api.test/graphql";
              ReqHeader := addHTTPHeaders ∅ [] "application/json; charset=utf-8";
              Body := JSONBody (JObj [("query", JStr "query {x}"); ("variables", JNull)]);
              Close := true |} in
  Method r = "POST" ∧ URL r = url c ∧ Close r = closeReq c.
Proof.
  intros c r.
  apply (sent_request_line json json generic_target generic_target url_parses c None
           (NewGraphqlRequest "query {x}") None None no_headers r).
  left. simpl. left.
Defined.

(** The values a request handed to the transport holds under a header
    name: first the value the client sets, when the name is Content-Type or
    Accept, and then the values of every entry that [range] yields under
    that canonical name, entry after entry in the order [range] yields
    them.  Nothing else is there. *)
Theorem outgoing_header_values :
  ∀ (T E : Type) (dT : decoder T) (dE : decoder E) (pu : string → option error)
    (c : Client) (ctx : Context) (req : GraphRequest)
    (target : option T) (errorResp : option E) (ch : choices) (r : http_request)
    (k : string),
    r ∈ Unified.sent (Unified.Run dT pu c ctx req target ch)
    ∨ r ∈ Legacy.sent (Legacy.Run dT dE pu c ctx req target errorResp ch) →
    Header_Values (ReqHeader r) k
    = ((if decide (CanonicalMIMEHeaderKey k = "Content-Type")
        then [content_type_of c ch]
        else if decide (CanonicalMIMEHeaderKey k = "Accept")
             then ["application/json; charset=utf-8"]
             else [])
       ++ values_under (CanonicalMIMEHeaderKey k) (header_order ch))%list.
Proof.
  intros * Hr.
  assert (request_shape c req ch r) as (_ & _ & _ & Hh & _).
  { destruct Hr as [Hr|Hr]; [by eapply Unified_sent_shape|by eapply Legacy_sent_shape]. }
  rewrite Hh. unfold Header_Values, addHTTPHeaders.
  rewrite index_add_entries_values. f_equal.
  unfold index, Header_Set.
  change (CanonicalMIMEHeaderKey "Accept") with "Accept".
  change (CanonicalMIMEHeaderKey "Content-Type") with "Content-Type".
  repeat case_decide.
  - rewrite lookup_insert_ne, H, lookup_insert_eq by (by rewrite H). done.
  - by rewrite H0, lookup_insert_eq.
  - by rewrite !lookup_insert_ne, lookup_empty by done.
Qed.

Lemma outgoing_header_values_witness :
  let c := client_with false (transport_double 200 None) in
  let ch := {| header_order := [("x-test", ["a"]); ("X-Test", ["b"; "c"])];
               boundary_choice := "b0" |} in
  let r := {| Method := "POST"; URL := "https://api.test/graphql";
              ReqHeader := addHTTPHeaders ∅ (header_order ch)
                             "application/json; charset=utf-8";
              Body := JSONBody (JObj [("query", JStr "query {x}"); ("variables", JNull)]);
              Close := false |} in
  Header_Values (ReqHeader r) "X-TEST"
  = ((if decide (CanonicalMIMEHeaderKey "X-TEST" = "Content-Type")
      then [content_type_of c ch]
      else if decide (CanonicalMIMEHeaderKey "X-TEST" = "Accept")
           then ["application/json; charset=utf-8"]
           else [])
     ++ values_under (CanonicalMIMEHeaderKey "X-TEST") (header_order ch))%list.
Proof.
  intros c ch r.
  apply (outgoing_header_values json json generic_target generic_target url_parses c None
           (NewGraphqlRequest "query {x}") None None ch r "X-TEST").
  left. simpl. left.
Defined.

(** The witness above, evaluated: two entries whose names differ only in
    case end up under one name, in the order [range] yields them. *)
Example header_names_merge_sample :
  Header_Values
    (addHTTPHeaders ∅ [("x-test", ["a"]); ("X-Test", ["b"; "c"])]
       "application/json; charset=utf-8")
    "X-TEST"
  = ["a"; "b"; "c"].
Proof. vm_compute. reflexivity. Qed.

(** In multipart mode the boundary announced in the Content-Type header is
    the boundary the body is written with. *)
Theorem multipart_boundary_announced :
  ∀ (T E : Type) (dT : decoder T) (dE : decoder E) (pu : string → option error)
    (c : Client) (ctx : Context) (req : GraphRequest)
    (target : option T) (errorResp : option E) (ch : choices) (r : http_request),
    useMultipartForm c = true →
    r ∈ Unified.sent (Unified.Run dT pu c ctx req target ch)
    ∨ r ∈ Legacy.sent (Legacy.Run dT dE pu c ctx req target errorResp ch) →
    ∃ boundary ps,
      Body r = MultipartBody boundary ps
      ∧ Header_Get (ReqHeader r) "Content-Type" = FormDataContentType boundary.
Proof.
  intros * Hmode Hr.
  assert (request_shape c req ch r) as (_ & _ & _ & Hh & Hb).
  { destruct Hr as [Hr|Hr]; [by eapply Unified_sent_shape|by eapply Legacy_sent_shape]. }
  unfold content_type_of in Hh. rewrite Hmode in Hh, Hb.
  destruct Hb as (ps & _ & Hb).
  exists (boundary_choice ch), ps. split; [done|].
  rewrite Hh. apply addHTTPHeaders_Content_Type.
Qed.

Lemma multipart_boundary_announced_witness :
  let r := {| Method := "POST"; URL := "https://api.test/graphql";
              ReqHeader := addHTTPHeaders ∅ [] (FormDataContentType "b0");
              Body := MultipartBody "b0" [field_part "query" (Text "query {x}")];
              Close := false |} in
  ∃ boundary ps,
    Body r = MultipartBody boundary ps
    ∧ Header_Get (ReqHeader r) "Content-Type" = FormDataContentType boundary.
Proof.
  intros r.
  apply (multipart_boundary_announced json json generic_target generic_target url_parses
           (client_with true (transport_double 200 None)) None
           (NewGraphqlRequest "query {x}") None None no_headers r).
  - reflexivity.
  - left. simpl. left.
Defined.

(** The unified [Run] never returns an envelope together with an error:
    whenever its error is not nil, its envelope is nil. *)
Theorem unified_envelope_or_error :
  ∀ (T : Type) (dT : decoder T) (pu : string → option error)
    (c : Client) (ctx : Context) (req : GraphRequest) (target : option T)
    (ch : choices) (g : option Unified.GraphResponse) (e : error),
    Unified.returned (Unified.Run dT pu c ctx req target ch) = Return (g, Some e) →
    g = None.
Proof. intros * Hret. run_paths. Qed.

Lemma unified_envelope_or_error_witness :
  (None : option (@Unified.GraphResponse json)) = None.
Proof.
  apply (unified_envelope_or_error json generic_target url_parses
           (client_with false (transport_double 500 (Some not_found_body))) None
           (NewGraphqlRequest "query {x}") None no_headers None (StatusNotOK 500)).
  reflexivity.
Defined.

Lemma request_after_calls_witness :
  let calls := [ CallVar "key" (GString "old"); CallFile "file" "a.txt" (R sample_file);
                 CallVar "key" (GString "value") ] in
  let req := apply_calls calls (NewGraphqlRequest "query {x}") in
  Query req = "query {x}"
  ∧ Header req = ∅
  ∧ Files req = file_calls calls
  ∧ (var_calls calls = [] → Vars req = None)
  ∧ (var_calls calls ≠ [] →
     ∃ m, Vars req = Some m ∧ m ≠ ∅
          ∧ ∀ k, m !! k = last_write k (var_calls calls)).
Proof.
  intros calls.
  apply (request_after_calls "query {x}" calls).
Defined.

Lemma envelope_keys_ignore_case_witness :
  let acc := ({| Unified.Data := Unified.DataNil; Unified.Errors := [] |}, None) in
  (foldName "ERRORS" = "ERRORS" →
   dec_member (Unified.GraphResponse_fields generic_target) acc ("ERRORS", JArr [])
   = dec_member (Unified.GraphResponse_fields generic_target) acc ("Errors", JArr []))
  ∧ (foldName "ERRORS" = "DATA" →
     dec_member (Unified.GraphResponse_fields generic_target) acc ("ERRORS", JArr [])
     = dec_member (Unified.GraphResponse_fields generic_target) acc ("Data", JArr [])).
Proof.
  intros acc.
  apply (envelope_keys_ignore_case json generic_target "ERRORS" (JArr []) acc).
Defined.
